(** * The rizzcharts chat client: [A2aService], [ChatService] and [Toolbar]

    A shallow embedding of
    - [src/angular/projects/rizzcharts/src/services/a2a_service.ts],
    - [src/angular/projects/rizzcharts/src/services/chat_service.ts],
    - [src/angular/projects/rizzcharts/src/components/toolbar/toolbar.ts],
    at the types the TypeScript sources declare, followed by the properties
    of one request/response cycle and of sequences of cycles.

    Conventions.
    - An [async] function is a computation that ends in a settled promise:
      [Fulfilled a] or [Rejected e].  A [throw] inside it is a rejection.
    - The signals of [ChatService] are the fields of a record that is
      threaded through the computation; a rejection keeps the writes made
      before it, as in JavaScript.
    - What the outside world answers during a cycle (the clock, the network)
      is an argument of the cycle. *)

From Stdlib Require Import ZArith.
From stdpp Require Import base option list gmap strings.

#[local] Set Warnings "-register-all".
#[local] Open Scope string_scope.
#[local] Open Scope list_scope.

(** ** JavaScript values

    The payload of a data part is declared [{[k: string]: unknown}]: a JSON
    object whose members the code inspects with [obj[key]], with [in] and
    by truthiness.  Numbers are the integers, which is all that truthiness
    tells apart (zero against the rest). *)

Inductive JSValue : Type :=
| JUndefined
| JNull
| JBool (b : bool)
| JNum (n : Z)
| JStr (s : string)
| JArr (items : list JSValue)
| JObj (members : gmap string JSValue).

Abbreviation JSObject := (gmap string JSValue).

(** ToBoolean. *)
Definition truthy (v : JSValue) : bool :=
  match v with
  | JUndefined | JNull => false
  | JBool b => b
  | JNum n => negb (n =? 0)%Z
  | JStr s => negb (String.eqb s EmptyString)
  | JArr _ | JObj _ => true
  end.

(** [obj[key]]: the member, or [undefined] when there is none. *)
Definition get (obj : JSObject) (key : string) : JSValue :=
  default JUndefined (obj !! key).

(** [key in obj]. *)
Definition has (key : string) (obj : JSObject) : bool :=
  bool_decide (is_Some (obj !! key)).

(** Truthiness of a [string | undefined], as in [if (newContextId)] and
    [!userVisibleText]. *)
Definition truthy_string (s : option string) : bool :=
  match s with
  | None => false
  | Some s => negb (String.eqb s EmptyString)
  end.

(** ** Exceptions and settled promises *)

Inductive Exn : Type :=
| Error (message : string)        (* new Error(message) *)
| SyntaxError (message : string)  (* response.json() on a body that is not JSON *)
| TypeError (message : string)    (* fetch() on a network failure; a member
                                     read on null or undefined *)
| ErrorOf (message : JSValue).    (* new Error(v) for a v that is neither a
                                     string nor undefined: its message is
                                     ToString(v) *)

Inductive Settled (A : Type) : Type :=
| Fulfilled (a : A)
| Rejected (e : Exn).
Arguments Fulfilled {A} a.
Arguments Rejected {A} e.

(** [new Error(message)]: the message is the argument when it is a string
    and the empty string when it is [undefined]; any other argument is
    converted by ToString, which is kept symbolic. *)
Definition new_Error (message : JSValue) : Exn :=
  match message with
  | JStr s => Error s
  | JUndefined => Error EmptyString
  | v => ErrorOf v
  end.

(** ** The types of [@a2a-js/sdk] that the services read *)

Inductive Part : Type :=
| TextPart (text : string) (metadata : option JSObject)      (* kind: 'text' *)
| FilePart (file : JSObject) (metadata : option JSObject)    (* kind: 'file' *)
| DataPart (data : JSObject) (metadata : option JSObject).   (* kind: 'data' *)

Record Message : Type := {
  Message_parts : list Part;
  Message_contextId : option string;
}.

Record Artifact : Type := {
  Artifact_artifactId : string;
  Artifact_parts : list Part;
}.

Record TaskStatus : Type := {
  TaskStatus_state : string;
  TaskStatus_message : option Message;
}.

Record Task : Type := {
  Task_id : string;
  Task_contextId : option string;
  Task_status : TaskStatus;
  Task_artifacts : option (list Artifact);
}.

(** [Task | Message], told apart by [kind]. *)
Inductive Result : Type :=
| ResultTask (task : Task)            (* kind: 'task' *)
| ResultMessage (message : Message).  (* kind: 'message' *)

Record SendMessageSuccessResponse : Type := {
  result : Result;
}.

(** ** The types of [@a2ui/web-lib/0.8] that the services read *)

Record UserAction : Type := {
  name : string;
  (* surfaceId, sourceComponentId, timestamp, context *)
  UserAction_rest : JSObject;
}.

Record A2UIClientEventMessage : Type := {
  userAction : option UserAction;
  (* the members other than userAction *)
  A2UIClientEventMessage_rest : JSObject;
}.

(** [message as any]: the client event as the plain object it is. *)
Definition as_any (message : A2UIClientEventMessage) : JSObject :=
  match userAction message with
  | Some action =>
      <["userAction" := JObj (<["name" := JStr (name action)]> (UserAction_rest action))]>
        (A2UIClientEventMessage_rest message)
  | None => A2UIClientEventMessage_rest message
  end.

(** A single-key command for the rendering processor. *)
Inductive ServerToClientMessage : Type :=
| beginRendering (payload : JSValue)
| surfaceUpdate (payload : JSValue)
| dataModelUpdate (payload : JSValue)
| deleteSurface (payload : JSValue).

(** ** [a2a_service.ts] *)

Module A2aService.

Record t : Type := {
  supportedCatalogUris : list string;
}.

(** The body handed to [JSON.stringify]. *)
Record RequestBody : Type := {
  parts : list Part;
  metadata_clientUiCapabilities_supportedCatalogUris : list string;
  context_id : option string;
}.

(** [error.error], for the [error] that [response.json()] gave on the
    failing branch.  The cast [as { error: string }] checks nothing: the
    body is whatever JSON it is.  Reading the member of [null] (or of
    [undefined]) throws; an object gives the member, or [undefined] when it
    has none; a boolean, a number, a string or an array has no such member
    and gives [undefined]. *)
Definition error (body : JSValue) : Settled JSValue :=
  match body with
  | JNull =>
      Rejected (TypeError "Cannot read properties of null (reading 'error')")
  | JUndefined =>
      Rejected (TypeError "Cannot read properties of undefined (reading 'error')")
  | JObj members => Fulfilled (get members "error")
  | JBool _ | JNum _ | JStr _ | JArr _ => Fulfilled JUndefined
  end.

(** A fetch [Response]: its [ok] flag and what [response.json()] settles
    to.  On the [ok] branch the body is returned without being read, and
    stands at the type the signature gives it; on the failing branch it is
    read, and stands as the JSON value it is. *)
Inductive Response : Type :=
| ResponseOk (json : Settled SendMessageSuccessResponse)
| ResponseFailed (json : Settled JSValue).


(** [fetch('/a2a', { body, method: 'POST' })], as the network answers it. *)
Definition Fetch : Type := RequestBody -> Settled Response.

Definition sendMessage (this : t) (request : list Part)
    (contextId : option string) (fetch : Fetch)
  : Settled SendMessageSuccessResponse :=
  match fetch {| parts := request;
                 metadata_clientUiCapabilities_supportedCatalogUris :=
                   supportedCatalogUris this;
                 context_id := contextId |} with
  | Rejected e => Rejected e
  | Fulfilled (ResponseOk json) => json
  | Fulfilled (ResponseFailed json) =>
      match json with
      | Rejected e => Rejected e
      | Fulfilled body =>
          match error body with
          | Rejected e => Rejected e
          | Fulfilled message => Rejected (new_Error message)
          end
      end
  end.

End A2aService.

(** ** [toolbar.ts] *)

Module Toolbar.

Record Catalog : Type := {
  value : string;
  viewValue : string;
}.

Definition catalogs : list Catalog := [
  {| value := "https://raw.githubusercontent.com/google/A2UI/refs/heads/main/specification/0.8/json/standard_catalog_definition.json";
     viewValue := "Standard" |};
  {| value := "https://raw.githubusercontent.com/google/A2UI/refs/heads/main/a2a_agents/python/adk/samples/rizzcharts/rizzcharts_catalog_definition.json";
     viewValue := "Rizzcharts Custom" |}
].

Definition ngOnInit (a2aService : A2aService.t) : A2aService.t :=
  {| A2aService.supportedCatalogUris := map value catalogs |}.

End Toolbar.

(** ** [@rizzcharts/types/ui_message], as [chat_service.ts] builds its values *)

(** [uuid()] draws are numbered: the k-th draw of a run is [k]. *)
Definition Uuid : Type := nat.

(** [new Date().toISOString()]. *)
Definition Timestamp : Type := string.

Inductive UiRole : Type :=
| ui_user
| ui_agent (name icon_url : string).

Inductive UiStatus : Type :=
| pending
| completed.

Record UiMessageContent : Type := {
  UiMessageContent_id : Uuid;
  data : Part;
}.

Record UiMessage : Type := {
  id : Uuid;
  context_id : string;
  role : UiRole;
  contents : list UiMessageContent;
  status : UiStatus;
  created : Timestamp;
  lastUpdated : Timestamp;
}.

(** ** [ModelProcessor] of [@a2ui/angular]

    The processor is not part of this repository.  What [ChatService] does
    to it is hand it batches of commands, so the model keeps the batches in
    the order received, and a surfaces snapshot is the copy of that record
    taken by [new Map(this.processor.getSurfaces())].  Both operations are
    taken to return normally. *)

Module ModelProcessor.

Record t : Type := {
  batches : list (list ServerToClientMessage);
}.

Definition Surfaces : Type := list (list ServerToClientMessage).

Definition getSurfaces (this : t) : Surfaces := batches this.

Definition processMessages (messages : list ServerToClientMessage) (this : t) : t :=
  {| batches := batches this ++ [messages] |}.

(** The calls an event's [completion] subject can receive. *)
Inductive SinkCall : Type :=
| next (value : list ServerToClientMessage)
| complete
| error (err : Exn).

(** [complete] and [error] end the subject; [next] does not. *)
Definition terminal (call : SinkCall) : bool :=
  match call with
  | next _ => false
  | complete | error _ => true
  end.

End ModelProcessor.

(** ** [chat_service.ts] *)

Module ChatService.

Record t : Type := {
  a2aService : A2aService.t;
  processor : ModelProcessor.t;
  surfaces : ModelProcessor.Surfaces;
  history : list UiMessage;
  contextId : string;
  isA2aStreamOpen : bool;
  (* number of uuid() draws so far *)
  uuids : nat;
}.

(** The service as the field initialisers leave it. *)
Definition create (a2aService : A2aService.t) (processor : ModelProcessor.t) : t :=
  {| a2aService := a2aService;
     processor := processor;
     surfaces := ModelProcessor.getSurfaces processor;
     history := [];
     contextId := EmptyString;
     isA2aStreamOpen := false;
     uuids := 0 |}.

(** *** Computations over the service *)

Definition M (A : Type) : Type := t -> Settled A * t.

#[export] Instance M_ret : MRet M := fun A a this => (Fulfilled a, this).

#[export] Instance M_bind : MBind M := fun A B f m this =>
  match m this with
  | (Fulfilled a, this') => f a this'
  | (Rejected e, this') => (Rejected e, this')
  end.

(** [await promise], for a promise that settles as given. *)
Definition await {A} (promise : Settled A) : M A := fun this => (promise, this).

Definition read {A} (field : t -> A) : M A := fun this => (Fulfilled (field this), this).

Definition write (f : t -> t) : M unit := fun this => (Fulfilled tt, f this).

Definition uuid : M Uuid := fun this =>
  (Fulfilled (uuids this),
   {| a2aService := a2aService this; processor := processor this;
      surfaces := surfaces this; history := history this;
      contextId := contextId this; isA2aStreamOpen := isA2aStreamOpen this;
      uuids := S (uuids this) |}).

(** [this.history.update(f)]. *)
Definition history_update (f : list UiMessage -> list UiMessage) : M unit :=
  write (fun this =>
    {| a2aService := a2aService this; processor := processor this;
       surfaces := surfaces this; history := f (history this);
       contextId := contextId this; isA2aStreamOpen := isA2aStreamOpen this;
       uuids := uuids this |}).

(** [this.contextId.set(v)]. *)
Definition contextId_set (v : string) : M unit :=
  write (fun this =>
    {| a2aService := a2aService this; processor := processor this;
       surfaces := surfaces this; history := history this;
       contextId := v; isA2aStreamOpen := isA2aStreamOpen this;
       uuids := uuids this |}).

(** [this.isA2aStreamOpen.set(v)]. *)
Definition isA2aStreamOpen_set (v : bool) : M unit :=
  write (fun this =>
    {| a2aService := a2aService this; processor := processor this;
       surfaces := surfaces this; history := history this;
       contextId := contextId this; isA2aStreamOpen := v;
       uuids := uuids this |}).

(** [this.surfaces.set(new Map(this.processor.getSurfaces()))]. *)
Definition surfaces_refresh : M unit :=
  write (fun this =>
    {| a2aService := a2aService this; processor := processor this;
       surfaces := ModelProcessor.getSurfaces (processor this);
       history := history this;
       contextId := contextId this; isA2aStreamOpen := isA2aStreamOpen this;
       uuids := uuids this |}).

(** [this.processor.processMessages(messages)]. *)
Definition processor_processMessages (messages : list ServerToClientMessage) : M unit :=
  write (fun this =>
    {| a2aService := a2aService this;
       processor := ModelProcessor.processMessages messages (processor this);
       surfaces := surfaces this; history := history this;
       contextId := contextId this; isA2aStreamOpen := isA2aStreamOpen this;
       uuids := uuids this |}).

(** [xs.map(f)] for an [f] that draws identifiers, left to right. *)
Fixpoint map_M {A B} (f : A -> M B) (xs : list A) : M (list B) :=
  match xs with
  | [] => mret []
  | x :: xs' => y ← f x; ys ← map_M f xs'; mret (y :: ys)
  end.

(** *** The message handed to [sendMessage] *)

(** [v0_8.Types.A2UIClientEventMessage | string]. *)
Inductive Input : Type :=
| InputString (text : string)                    (* typeof message === 'string' *)
| InputEvent (message : A2UIClientEventMessage).

Definition createUserMessagePart (message : Input) : Part :=
  match message with
  | InputString text => TextPart text None
  | InputEvent message =>
      DataPart (as_any message)
               (Some {[ "mimeType" := JStr "application/json+a2ui" ]})
  end.

Definition createUserMessageContents (message : Input) : M (list UiMessageContent) :=
  match message with
  | InputString _ =>
      content_id ← uuid;
      mret [ {| UiMessageContent_id := content_id;
                data := createUserMessagePart message |} ]
  | InputEvent event =>
      let userVisibleText := name <$> userAction event in
      if truthy_string userVisibleText then
        content_id ← uuid;
        mret [ {| UiMessageContent_id := content_id;
                  data := TextPart (default EmptyString userVisibleText) None |} ]
      else mret []
  end.

(** *** The pure steps of [sendMessage], by the name of the constant or
    expression each one computes *)

(** [result?.contextId]. *)
Definition newContextId (result : Result) : option string :=
  match result with
  | ResultTask task => Task_contextId task
  | ResultMessage message => Message_contextId message
  end.

(** [agentResponseParts], lines 97 to 109. *)
Definition agentResponseParts (result : Result) : list Part :=
  match result with
  | ResultTask task =>
      let taskStatusParts :=
        default [] (Message_parts <$> TaskStatus_message (Task_status task)) in
      let artifactParts :=
        flat_map (fun artifact => Artifact_parts artifact)
                 (default [] (Task_artifacts task)) in
      taskStatusParts ++ artifactParts
  | ResultMessage message => Message_parts message
  end.

(** The callback of the [.map] at line 112: the command of one part, or
    [null]. *)
Definition a2uiDataPart (part : Part) : option ServerToClientMessage :=
  match part with
  | DataPart data _ =>
      if truthy (get data "beginRendering") then
        Some (beginRendering (get data "beginRendering"))
      else if truthy (get data "surfaceUpdate") then
        Some (surfaceUpdate (get data "surfaceUpdate"))
      else if truthy (get data "dataModelUpdate") then
        Some (dataModelUpdate (get data "dataModelUpdate"))
      else if truthy (get data "deleteSurface") then
        Some (deleteSurface (get data "deleteSurface"))
      else None
  | _ => None
  end.

(** [a2uiDataParts]: [.map(...)] then [.filter((message) => !!message)],
    which drops the [null]s and keeps every command. *)
Definition a2uiDataParts (agentResponseParts : list Part) : list ServerToClientMessage :=
  omap a2uiDataPart agentResponseParts.

(** The predicate of the [.filter] at line 142. *)
Definition shown (part : Part) : bool :=
  match part with
  | TextPart _ _ => true
  | DataPart data _ => has "beginRendering" data
  | FilePart _ _ => false
  end.

(** The callback of the [.map] at line 145. *)
Definition content_of (part : Part) : M UiMessageContent :=
  content_id ← uuid;
  mret {| UiMessageContent_id := content_id; data := part |}.

(** The argument list of [newAgentMessage.contents.push(...)]. *)
Definition agentContents (agentResponseParts : list Part) : M (list UiMessageContent) :=
  map_M content_of (filter (fun part => shown part = true) agentResponseParts).

(** [{ ...message, lastUpdated, status: 'completed' }]. *)
Definition complete_copy (message : UiMessage) (lastUpdated : Timestamp) : UiMessage :=
  {| id := id message; context_id := context_id message; role := role message;
     contents := contents message; status := completed;
     created := created message; lastUpdated := lastUpdated |}.

(** [newAgentMessage.contents.push(...items)].  The object pushed to is
    also the last element of the history array, until the update that
    follows replaces that element with the completed copy; the model keeps
    the local value, which gives the same history once the call has
    settled. *)
Definition contents_push (message : UiMessage) (items : list UiMessageContent) : UiMessage :=
  {| id := id message; context_id := context_id message; role := role message;
     contents := contents message ++ items; status := status message;
     created := created message; lastUpdated := lastUpdated message |}.

(** *** [sendMessage] *)

(** What the world answers during one call: the clock at entry, the
    network, the clock when the agent message is completed. *)
Record Answers : Type := {
  now : Timestamp;
  fetch : A2aService.Fetch;
  later : Timestamp;
}.

Definition sendMessage (message : Input) (world : Answers) : M unit :=
  let now := now world in
  user_id ← uuid;
  user_context_id ← read contextId;
  user_contents ← createUserMessageContents message;
  let newUserMessage :=
    {| id := user_id; context_id := user_context_id; role := ui_user;
       contents := user_contents; status := pending;
       created := now; lastUpdated := now |} in
  agent_id ← uuid;
  agent_context_id ← read contextId;
  let newAgentMessage :=
    {| id := agent_id; context_id := agent_context_id;
       role := ui_agent "MyCharts Agent" "rizz-agent.png";
       contents := []; status := pending;
       created := now; lastUpdated := now |} in
  history_update (fun curr => curr ++ [newUserMessage; newAgentMessage]);;
  surfaces_refresh;;
  isA2aStreamOpen_set true;;
  service ← read a2aService;
  current_context_id ← read contextId;
  a2aResponse ← await (A2aService.sendMessage service
                         [createUserMessagePart message]
                         (Some current_context_id) (fetch world));
  let result := result a2aResponse in
  let newContextId := newContextId result in
  (if truthy_string newContextId
   then contextId_set (default EmptyString newContextId)
   else mret tt);;
  let agentResponseParts := agentResponseParts result in
  let a2uiDataParts := a2uiDataParts agentResponseParts in
  processor_processMessages a2uiDataParts;;
  pushed ← agentContents agentResponseParts;
  let newAgentMessage := contents_push newAgentMessage pushed in
  isA2aStreamOpen_set false;;
  history_update (fun history =>
    removelast history ++ [complete_copy newAgentMessage (later world)]);;
  surfaces_refresh.

(** *** The subscriber installed by the constructor *)

(** The handler of [this.processor.events.subscribe]: it returns the calls
    made on [event.completion], in order, with the service afterwards.
    The [try] block awaits [sendMessage] and then calls [next([])] and
    [complete()]; the [catch] block calls [error(err)].  The calls on the
    subject return normally, so the [catch] block runs exactly when
    [sendMessage] rejects. *)
Definition on_event (event_message : A2UIClientEventMessage) (world : Answers)
    (this : t) : list ModelProcessor.SinkCall * t :=
  match sendMessage (InputEvent event_message) world this with
  | (Fulfilled _, this') =>
      ([ModelProcessor.next []; ModelProcessor.complete], this')
  | (Rejected err, this') =>
      ([ModelProcessor.error err], this')
  end.

(** *** Sequences of calls, one after the other

    Each call settles before the next one is made. *)

Record Call : Type := {
  message : Input;
  world : Answers;
}.

Definition after (this : t) (call : Call) : t :=
  snd (sendMessage (message call) (world call) this).

Definition run (calls : list Call) (this : t) : t :=
  fold_left after calls this.


(** *** Closed forms

    What a call leaves behind, written out field by field.  These are not
    taken from the source: [sendMessage_rejected] and
    [sendMessage_fulfilled] below prove that the program above computes
    them. *)

(** The service after [k] more [uuid()] draws. *)
Definition bump (k : nat) (this : t) : t :=
  {| a2aService := a2aService this; processor := processor this;
     surfaces := surfaces this; history := history this;
     contextId := contextId this; isA2aStreamOpen := isA2aStreamOpen this;
     uuids := uuids this + k |}.

(** The promise that [sendMessage] awaits at line 83 when it is entered
    in [this]. *)
Definition awaited (message : Input) (world : Answers) (this : t)
  : Settled SendMessageSuccessResponse :=
  A2aService.sendMessage (a2aService this) [createUserMessagePart message]
    (Some (contextId this)) (fetch world).

(** The value of [createUserMessageContents(message)] when the next draw
    is [n]. *)
Definition user_contents (message : Input) (n : Uuid) : list UiMessageContent :=
  match message with
  | InputString _ =>
      [ {| UiMessageContent_id := n; data := createUserMessagePart message |} ]
  | InputEvent event =>
      if truthy_string (name <$> userAction event)
      then [ {| UiMessageContent_id := n;
                data := TextPart (default EmptyString (name <$> userAction event)) None |} ]
      else []
  end.

(** Parts wrapped into contents with consecutive identifiers from [n]. *)
Fixpoint numbered (n : Uuid) (parts : list Part) : list UiMessageContent :=
  match parts with
  | [] => []
  | part :: parts' =>
      {| UiMessageContent_id := n; data := part |} :: numbered (S n) parts'
  end.

Definition userMessage_of (message : Input) (world : Answers) (this : t) : UiMessage :=
  {| id := uuids this; context_id := contextId this; role := ui_user;
     contents := user_contents message (S (uuids this)); status := pending;
     created := now world; lastUpdated := now world |}.

Definition agent_id (message : Input) (this : t) : Uuid :=
  S (uuids this + length (user_contents message (S (uuids this)))).

Definition agentMessage_of (message : Input) (world : Answers) (this : t) : UiMessage :=
  {| id := agent_id message this;
     context_id := contextId this;
     role := ui_agent "MyCharts Agent" "rizz-agent.png";
     contents := []; status := pending;
     created := now world; lastUpdated := now world |}.

(** The service when the awaited promise rejects. *)
Definition suspended (message : Input) (world : Answers) (this : t) : t :=
  {| a2aService := a2aService this;
     processor := processor this;
     surfaces := ModelProcessor.getSurfaces (processor this);
     history := history this ++
                [userMessage_of message world this; agentMessage_of message world this];
     contextId := contextId this;
     isA2aStreamOpen := true;
     uuids := S (agent_id message this) |}.

Definition agentMessage_completed (message : Input) (world : Answers) (this : t)
    (response : SendMessageSuccessResponse) : UiMessage :=
  {| id := agent_id message this;
     context_id := contextId this;
     role := ui_agent "MyCharts Agent" "rizz-agent.png";
     contents := numbered (S (agent_id message this))
                   (filter (fun part => shown part = true)
                           (agentResponseParts (result response)));
     status := completed;
     created := now world; lastUpdated := later world |}.

(** The service when the awaited promise fulfils with [response]. *)
Definition resumed (message : Input) (world : Answers) (this : t)
    (response : SendMessageSuccessResponse) : t :=
  let parts := agentResponseParts (result response) in
  let processor' :=
    ModelProcessor.processMessages (a2uiDataParts parts) (processor this) in
  {| a2aService := a2aService this;
     processor := processor';
     surfaces := ModelProcessor.getSurfaces processor';
     history := history this ++
                [userMessage_of message world this;
                 agentMessage_completed message world this response];
     contextId := if truthy_string (newContextId (result response))
                  then default EmptyString (newContextId (result response))
                  else contextId this;
     isA2aStreamOpen := false;
     uuids := S (agent_id message this)
              + length (filter (fun part => shown part = true) parts) |}.

End ChatService.

(** ** Sample inputs *)

Module Samples.

Definition a2aService : A2aService.t :=
  Toolbar.ngOnInit {| A2aService.supportedCatalogUris := [] |}.

Definition service : ChatService.t :=
  ChatService.create a2aService {| ModelProcessor.batches := [] |}.

Definition answers (response : Settled A2aService.Response) : ChatService.Answers :=
  {| ChatService.now := "2025-11-03T10:00:00.000Z";
     ChatService.fetch := fun _ => response;
     ChatService.later := "2025-11-03T10:00:01.000Z" |}.

(** A failing response with the body [{"error": "boom"}]. *)
Definition boom : Settled A2aService.Response :=
  Fulfilled (A2aService.ResponseFailed (Fulfilled (JObj {[ "error" := JStr "boom" ]}))).



(** [{kind:'data', data:{beginRendering: null}}]. *)
Definition beginRendering_null : Part :=
  DataPart {[ "beginRendering" := JNull ]} None.

(** [{kind:'data', data:{beginRendering: {surfaceId:'chart', root:'root'}}}]. *)
Definition beginRendering_chart : Part :=
  DataPart {[ "beginRendering" :=
                JObj {[ "surfaceId" := JStr "chart"; "root" := JStr "root" ]} ]} None.

(** A data part with two recognised keys, both truthy. *)
Definition update_and_delete : Part :=
  DataPart {[ "deleteSurface" := JObj {[ "surfaceId" := JStr "chart" ]};
              "surfaceUpdate" := JObj {[ "surfaceId" := JStr "chart" ]} ]} None.

Definition hello : Part := TextPart "hello" None.

(** A success response: a message with one text part and a context id. *)
Definition hello_message : Settled A2aService.Response :=
  Fulfilled (A2aService.ResponseOk (Fulfilled
    {| result := ResultMessage {| Message_parts := [hello];
                                  Message_contextId := Some "ctx-1" |} |})).

(** A success response: a message with no context id. *)
Definition hello_again : Settled A2aService.Response :=
  Fulfilled (A2aService.ResponseOk (Fulfilled
    {| result := ResultMessage {| Message_parts := [hello];
                                  Message_contextId := None |} |})).

End Samples.

(** ** Events delivered one after the other *)

Module Events.
Import ChatService.

(** An event of [this.processor.events], with what the world answers while
    it is handled. *)
Record Event : Type := {
  event_message : A2UIClientEventMessage;
  event_world : Answers;
}.

(** The subscriber run on each event in turn, each handled to its end
    before the next is delivered: the calls made on each event's
    [completion], and the service afterwards. *)
Fixpoint deliver (events : list Event) (this : t)
  : list (list ModelProcessor.SinkCall) * t :=
  match events with
  | [] => ([], this)
  | event :: events' =>
      let (calls, this') := on_event (event_message event) (event_world event) this in
      let (rest, this'') := deliver events' this' in
      (calls :: rest, this'')
  end.

(** The [sendMessage] call the subscriber makes for an event. *)
Definition call_of (event : Event) : Call :=
  {| message := InputEvent (event_message event); world := event_world event |}.

End Events.

(** ** More sample inputs *)

Module MoreSamples.

(** A network that answers by the context id of the request: a failure for
    the empty one, a text message otherwise. *)
Definition by_context_id : A2aService.Fetch := fun body =>
  if decide (A2aService.context_id body = Some EmptyString)
  then Samples.boom
  else Samples.hello_message.

(** [{kind:'data', data:{surfaceUpdate: {surfaceId:'chart'}}}]. *)
Definition surfaceUpdate_chart : Part :=
  DataPart {[ "surfaceUpdate" := JObj {[ "surfaceId" := JStr "chart" ]} ]} None.

(** A success response: a task with no status message and one artifact
    holding a surface update. *)
Definition chart_task : Settled A2aService.Response :=
  Fulfilled (A2aService.ResponseOk (Fulfilled
    {| result := ResultTask
         {| Task_id := "task-1";
            Task_contextId := Some "ctx-1";
            Task_status := {| TaskStatus_state := "completed";
                              TaskStatus_message := None |};
            Task_artifacts :=
              Some [ {| Artifact_artifactId := "artifact-1";
                        Artifact_parts := [surfaceUpdate_chart] |} ] |} |})).

End MoreSamples.

(** ** Calls in flight together

    [sendMessage] suspends once, at the [await] of line 83, and nothing
    keeps a second call from starting before the first one resumes.  Here
    the call is cut at that [await]: [begin] is lines 50 to 88, up to and
    including the call of [this.a2aService.sendMessage], and [resume] is
    lines 90 to 162, run when the awaited promise has settled.

    The array in [this.history] holds references to message objects, and
    [newAgentMessage.contents.push] changes an object that the array may
    still hold.  So the objects live in a store, a reference is an index
    into it, and the history is a list of references.  The completed copy
    [{...newAgentMessage}] shares its [contents] array with the original;
    a call pushes once, before it makes its copy, so no push follows and
    the copy is kept by value. *)

Module InFlight.
Import ChatService.

Definition Ref : Type := nat.

Record t : Type := {
  (* the signals other than [history]; the [history] field of this record
     is neither read nor written here *)
  signals : ChatService.t;
  (* the message objects created so far *)
  objects : list UiMessage;
  (* [this.history()] *)
  history : list Ref;
}.

(** The service as [ChatService] sees it: the history read through the
    references. *)
Definition view (this : t) : ChatService.t :=
  {| a2aService := a2aService (signals this);
     processor := processor (signals this);
     surfaces := surfaces (signals this);
     ChatService.history := omap (fun ref => objects this !! ref) (history this);
     contextId := contextId (signals this);
     isA2aStreamOpen := isA2aStreamOpen (signals this);
     uuids := uuids (signals this) |}.

(** A service with no call in flight: every message is an object of its
    own. *)
Definition embed (service : ChatService.t) : t :=
  {| signals := service;
     objects := ChatService.history service;
     history := seq 0 (length (ChatService.history service)) |}.

Definition N (A : Type) : Type := t -> Settled A * t.

#[export] Instance N_ret : MRet N := fun A a this => (Fulfilled a, this).

#[export] Instance N_bind : MBind N := fun A B f m this =>
  match m this with
  | (Fulfilled a, this') => f a this'
  | (Rejected e, this') => (Rejected e, this')
  end.

(** A computation on the signals. *)
Definition lift {A} (m : M A) : N A := fun this =>
  let (outcome, signals') := m (signals this) in
  (outcome,
   {| signals := signals'; objects := objects this; history := history this |}).

(** An object literal: a new object, and the reference to it. *)
Definition new (message : UiMessage) : N Ref := fun this =>
  (Fulfilled (length (objects this)),
   {| signals := signals this;
      objects := objects this ++ [message];
      history := history this |}).

(** [ref.contents.push(...items)]: the object is changed in place, for
    every holder of the reference; the result is the object as it is then.
    A reference that names no object is [undefined]. *)
Definition push (ref : Ref) (items : list UiMessageContent) : N UiMessage := fun this =>
  match objects this !! ref with
  | Some message =>
      (Fulfilled (contents_push message items),
       {| signals := signals this;
          objects := <[ref := contents_push message items]> (objects this);
          history := history this |})
  | None =>
      (Rejected (TypeError "Cannot read properties of undefined (reading 'contents')"),
       this)
  end.

(** [this.history.update(f)]. *)
Definition history_update (f : list Ref -> list Ref) : N unit := fun this =>
  (Fulfilled tt,
   {| signals := signals this; objects := objects this; history := f (history this) |}).

(** What the continuation after the [await] holds on to. *)
Record Suspended : Type := {
  newAgentMessage : Ref;
  (* how the awaited call of [this.a2aService.sendMessage] settles *)
  promise : Settled SendMessageSuccessResponse;
  answers : Answers;
}.

(** Lines 50 to 88. *)
Definition begin (message : Input) (world : Answers) : N Suspended :=
  let now := now world in
  user_id ← lift uuid;
  user_context_id ← lift (read contextId);
  user_contents ← lift (createUserMessageContents message);
  newUserMessage ←
    new {| id := user_id; context_id := user_context_id; role := ui_user;
           contents := user_contents; status := pending;
           created := now; lastUpdated := now |};
  agent_id ← lift uuid;
  agent_context_id ← lift (read contextId);
  newAgentMessage ←
    new {| id := agent_id; context_id := agent_context_id;
           role := ui_agent "MyCharts Agent" "rizz-agent.png";
           contents := []; status := pending;
           created := now; lastUpdated := now |};
  history_update (fun curr => curr ++ [newUserMessage; newAgentMessage]);;
  lift surfaces_refresh;;
  lift (isA2aStreamOpen_set true);;
  service ← lift (read a2aService);
  current_context_id ← lift (read contextId);
  mret {| newAgentMessage := newAgentMessage;
          promise := A2aService.sendMessage service
                       [createUserMessagePart message]
                       (Some current_context_id) (fetch world);
          answers := world |}.

(** Lines 90 to 162. *)
Definition resume (suspended : Suspended) : N unit :=
  a2aResponse ← lift (await (promise suspended));
  let result := result a2aResponse in
  let newContextId := newContextId result in
  lift (if truthy_string newContextId
        then contextId_set (default EmptyString newContextId)
        else mret tt);;
  let agentResponseParts := agentResponseParts result in
  let a2uiDataParts := a2uiDataParts agentResponseParts in
  lift (processor_processMessages a2uiDataParts);;
  items ← lift (agentContents agentResponseParts);
  agent ← push (newAgentMessage suspended) items;
  lift (isA2aStreamOpen_set false);;
  completed ← new (complete_copy agent (later (answers suspended)));
  history_update (fun history => removelast history ++ [completed]);;
  lift surfaces_refresh.

(** A call that nothing interleaves with. *)
Definition call (message : Input) (world : Answers) : N unit :=
  suspended ← begin message world;
  resume suspended.

(** Calls one after the other, each resumed before the next begins. *)
Definition after (this : t) (c : Call) : t :=
  snd (call (message c) (world c) this).

Definition run (calls : list Call) (this : t) : t :=
  fold_left after calls this.

(** *** Schedules

    A schedule says in which order calls begin and resume.  The calls begun
    are numbered in the order they begin; a [Resume] of a call that has not
    begun, or has resumed already, does nothing. *)

Inductive Step : Type :=
| Begin (message : Input) (world : Answers)
| Resume (k : nat).

Record Flight : Type := {
  service : t;
  (* the calls begun so far; [None] for one that has resumed *)
  calls : list (option Suspended);
}.

Definition start (this : t) : Flight := {| service := this; calls := [] |}.

Definition step (flight : Flight) (s : Step) : Flight :=
  match s with
  | Begin message world =>
      match begin message world (service flight) with
      | (Fulfilled suspended, this') =>
          {| service := this'; calls := calls flight ++ [Some suspended] |}
      | (Rejected _, this') =>
          {| service := this'; calls := calls flight ++ [None] |}
      end
  | Resume k =>
      match calls flight !! k with
      | Some (Some suspended) =>
          {| service := snd (resume suspended (service flight));
             calls := <[k := None]> (calls flight) |}
      | _ => flight
      end
  end.

Definition exec (steps : list Step) (flight : Flight) : Flight :=
  fold_left step steps flight.

(** Whether a step begins a call. *)
Definition begins (s : Step) : bool :=
  match s with
  | Begin _ _ => true
  | Resume _ => false
  end.

(** Every reference in the history names an object. *)
Definition valid (this : t) : Prop :=
  Forall (fun ref => ref < length (objects this)) (history this).

(** *** Closed forms *)

(** [service] with [history] for its history field. *)
Definition with_history (history : list UiMessage) (service : ChatService.t)
  : ChatService.t :=
  {| a2aService := a2aService service;
     processor := processor service;
     surfaces := surfaces service;
     ChatService.history := history;
     contextId := contextId service;
     isA2aStreamOpen := isA2aStreamOpen service;
     uuids := uuids service |}.

(** The signals once a call has resumed with [response]. *)
Definition resumed_signals (response : SendMessageSuccessResponse)
    (service : ChatService.t) : ChatService.t :=
  let parts := agentResponseParts (result response) in
  let processor' :=
    ModelProcessor.processMessages (a2uiDataParts parts) (processor service) in
  {| a2aService := a2aService service;
     processor := processor';
     surfaces := ModelProcessor.getSurfaces processor';
     ChatService.history := ChatService.history service;
     contextId := if truthy_string (newContextId (result response))
                  then default EmptyString (newContextId (result response))
                  else contextId service;
     isA2aStreamOpen := false;
     uuids := uuids service
              + length (filter (fun part => shown part = true) parts) |}.

(** A store that holds the messages of [service] followed by [later], with
    a history that refers to all of the former and to those of the latter
    at the offsets [offsets]. *)
Definition above (service : ChatService.t) (signals : ChatService.t)
    (later : list UiMessage) (offsets : list nat) : t :=
  {| signals := signals;
     objects := ChatService.history service ++ later;
     history := seq 0 (length (ChatService.history service))
                ++ ((fun i => length (ChatService.history service) + i) <$> offsets) |}.

(** The contents a resuming call pushes onto its agent message. *)
Definition pushed_contents (response : SendMessageSuccessResponse)
    (service : ChatService.t) : list UiMessageContent :=
  numbered (uuids service)
    (filter (fun part => shown part = true) (agentResponseParts (result response))).

End InFlight.

(** * Properties *)

(** ** Running the computations of [ChatService] *)

Module Run.
Import ChatService.

Lemma bump_0 this : bump 0 this = this.
Proof. destruct this; unfold bump; cbn. by rewrite Nat.add_0_r. Qed.

Lemma bump_bump j k this : bump j (bump k this) = bump (k + j) this.
Proof. unfold bump; cbn. f_equal. lia. Qed.

Lemma bind_run {A B} (m : M A) (f : A -> M B) this :
  (m ≫= f) this =
  match m this with
  | (Fulfilled a, this') => f a this'
  | (Rejected e, this') => (Rejected e, this')
  end.
Proof. reflexivity. Qed.

Lemma ret_run {A} (a : A) this : (mret a : M A) this = (Fulfilled a, this).
Proof. reflexivity. Qed.

Lemma uuid_run this : uuid this = (Fulfilled (uuids this), bump 1 this).
Proof. unfold uuid, bump. by rewrite Nat.add_1_r. Qed.

Lemma read_run {A} (field : t -> A) this :
  read field this = (Fulfilled (field this), this).
Proof. reflexivity. Qed.

Lemma write_run f this : write f this = (Fulfilled tt, f this).
Proof. reflexivity. Qed.

Lemma await_run {A} (promise : Settled A) this : await promise this = (promise, this).
Proof. reflexivity. Qed.

Lemma content_of_run part this :
  content_of part this =
  (Fulfilled {| UiMessageContent_id := uuids this; data := part |}, bump 1 this).
Proof. unfold content_of. by rewrite bind_run, uuid_run. Qed.

Ltac run_M :=
  repeat first
    [ rewrite bind_run | rewrite ret_run | rewrite uuid_run | rewrite read_run
    | rewrite write_run | rewrite await_run | rewrite content_of_run
    | progress cbn [a2aService processor surfaces history contextId
                    isA2aStreamOpen uuids bump] ].

Lemma map_M_content_of_run parts this :
  map_M content_of parts this =
  (Fulfilled (numbered (uuids this) parts), bump (length parts) this).
Proof.
  revert this. induction parts as [|part parts IH]; intros this.
  - by rewrite bump_0.
  - cbn [map_M numbered length]. run_M. rewrite IH. run_M.
    by rewrite Nat.add_1_r, bump_bump.
Qed.

Lemma createUserMessageContents_run message this :
  createUserMessageContents message this =
  (Fulfilled (user_contents message (uuids this)),
   bump (length (user_contents message (uuids this))) this).
Proof.
  destruct message as [text|event]; cbn [createUserMessageContents user_contents].
  - by run_M.
  - destruct (truthy_string _); run_M; [done|by rewrite bump_0].
Qed.

(** The call when the awaited promise rejects: the lines after the
    [await] do not run. *)
Lemma sendMessage_rejected message world this e :
  awaited message world this = Rejected e ->
  sendMessage message world this = (Rejected e, suspended message world this).
Proof.
  intros H.
  unfold sendMessage, history_update, surfaces_refresh, isA2aStreamOpen_set.
  run_M. rewrite createUserMessageContents_run. run_M.
  fold (awaited message world this). rewrite H.
  unfold suspended, userMessage_of, agentMessage_of, agent_id.
  by rewrite !Nat.add_1_r.
Qed.

(** The call when the awaited promise fulfils. *)
Lemma sendMessage_fulfilled message world this response :
  awaited message world this = Fulfilled response ->
  sendMessage message world this =
  (Fulfilled tt, resumed message world this response).
Proof.
  intros H.
  unfold sendMessage, history_update, surfaces_refresh, isA2aStreamOpen_set,
    contextId_set, processor_processMessages, agentContents.
  run_M. rewrite createUserMessageContents_run. run_M.
  fold (awaited message world this). rewrite H.
  destruct (truthy_string (newContextId (result response))) eqn:Hctx;
    run_M; rewrite map_M_content_of_run; run_M.
  all: rewrite !Nat.add_1_r.
  all: rewrite (removelast_app (history this)) by done; cbn [removelast].
  all: rewrite <- (app_assoc (history this)); cbn [app].
  all: unfold resumed, agentMessage_completed, complete_copy, contents_push,
         userMessage_of, agentMessage_of, agent_id; cbn.
  all: by rewrite ?Hctx.
Qed.

(** Every call settles, one way or the other. *)
Lemma sendMessage_settles message world this :
  match awaited message world this with
  | Fulfilled response =>
      sendMessage message world this =
      (Fulfilled tt, resumed message world this response)
  | Rejected e =>
      sendMessage message world this = (Rejected e, suspended message world this)
  end.
Proof.
  destruct (awaited message world this) eqn:H;
    auto using sendMessage_fulfilled, sendMessage_rejected.
Qed.

(** The service after a call, in closed form. *)
Lemma after_settled this call :
  after this call =
  match awaited (message call) (world call) this with
  | Fulfilled response => resumed (message call) (world call) this response
  | Rejected _ => suspended (message call) (world call) this
  end.
Proof.
  unfold after.
  pose proof (sendMessage_settles (message call) (world call) this) as H.
  destruct (awaited _ _ this); by rewrite H.
Qed.

Lemma run_cons call calls this : run (call :: calls) this = run calls (after this call).
Proof. reflexivity. Qed.

Lemma run_app calls calls' this : run (calls ++ calls') this = run calls' (run calls this).
Proof. apply fold_left_app. Qed.

(** A call appends two messages and touches nothing before them. *)
Lemma history_after this call :
  exists user agent, history (after this call) = history this ++ [user; agent].
Proof.
  rewrite after_settled. destruct (awaited _ _ this); cbn; eauto.
Qed.

(** The history only grows at its end. *)
Lemma history_run_prefix calls this : history this `prefix_of` history (run calls this).
Proof.
  revert this. induction calls as [|call calls IH]; intros this; [done|].
  rewrite run_cons. etrans; [|apply IH].
  destruct (history_after this call) as (user & agent & ->).
  by apply prefix_app_r.
Qed.

End Run.


(** ** The transport: [A2aService.sendMessage] *)

Section Transport.
Import A2aService.




End Transport.

(** ** One call of [ChatService.sendMessage] *)

Section Call.
Import ChatService Run.

(** C2.  Whatever the message, the answers of the world and the service a
    call starts in, the history is two longer when the call has settled.
    When the awaited transport call rejects, the two new messages are the
    user message and the agent message as built at entry; when it fulfils,
    the last of the two has been replaced by the completed agent message. *)
Theorem history_grows_by_two (message : Input) (world : Answers) (this : t) :
  length (history (snd (sendMessage message world this)))
  = length (history this) + 2
  /\ match awaited message world this with
     | Fulfilled response =>
         history (snd (sendMessage message world this))
         = history this ++ [userMessage_of message world this;
                            agentMessage_completed message world this response]
     | Rejected _ =>
         history (snd (sendMessage message world this))
         = history this ++ [userMessage_of message world this;
                            agentMessage_of message world this]
     end.
Proof.
  pose proof (sendMessage_settles message world this) as H.
  destruct (awaited message world this) as [response|e]; rewrite H; cbn.
  all: by rewrite length_app.
Qed.

(** C3.  For every event, the subscriber runs [sendMessage] on the event's
    message and then calls the event's completion sink: [next([])] followed
    by [complete()] when the call fulfilled, [error(err)] with the caught
    error when it rejected.  Either way exactly one of the calls made is
    terminal. *)
Theorem one_terminal_call
    (event_message : A2UIClientEventMessage) (world : Answers) (this : t) :
  let outcome := sendMessage (InputEvent event_message) world this in
  let calls := fst (on_event event_message world this) in
  snd (on_event event_message world this) = snd outcome
  /\ match fst outcome with
     | Fulfilled _ => calls = [ModelProcessor.next []; ModelProcessor.complete]
     | Rejected err => calls = [ModelProcessor.error err]
     end
  /\ length (filter (fun call => ModelProcessor.terminal call = true) calls) = 1.
Proof.
  cbv zeta. unfold on_event.
  destruct (sendMessage (InputEvent event_message) world this) as [[[]|err] this'].
  all: by cbn.
Qed.

(** C4.  When the awaited transport call rejects with [e], the call rejects
    with that same [e]; the history ends with the user message and the
    agent message built at entry, the latter still [pending] and with no
    contents; the stream-open flag is [true].  Calls made afterwards leave
    both messages where and as they are. *)
Theorem rejection_leaves_agent_pending
    (message : Input) (world : Answers) (this : t) (e : Exn) :
  awaited message world this = Rejected e ->
  let this' := snd (sendMessage message world this) in
  let agent := agentMessage_of message world this in
  fst (sendMessage message world this) = Rejected e
  /\ history this' = history this ++ [userMessage_of message world this; agent]
  /\ role agent = ui_agent "MyCharts Agent" "rizz-agent.png"
  /\ status agent = pending
  /\ contents agent = []
  /\ isA2aStreamOpen this' = true
  /\ forall later : list Call,
       history (run later this') !! S (length (history this)) = Some agent.
Proof.
  intros H this' agent. subst this'.
  rewrite (sendMessage_rejected _ _ _ _ H). cbn [fst snd].
  repeat split.
  intros later.
  eapply prefix_lookup_Some; [|apply history_run_prefix].
  cbn [suspended history].
  rewrite lookup_app_r by lia.
  by replace (S (length (history this)) - length (history this)) with 1 by lia.
Qed.

Lemma rejection_leaves_agent_pending_witness :
  fst (sendMessage (InputString "hi") (Samples.answers Samples.boom) Samples.service)
  = Rejected (Error "boom")
  /\ isA2aStreamOpen
       (snd (sendMessage (InputString "hi") (Samples.answers Samples.boom) Samples.service))
     = true.
Proof.
  pose proof (rejection_leaves_agent_pending
                (InputString "hi") (Samples.answers Samples.boom) Samples.service
                (Error "boom") eq_refl) as H.
  cbv zeta in H.
  exact (conj (proj1 H) (proj1 (proj2 (proj2 (proj2 (proj2 (proj2 H))))))).
Defined.

End Call.

(** ** Calls one after the other *)

Section Calls.
Import ChatService Run.


Lemma truthy_string_Some (c : string) :
  truthy_string (Some c) = true <-> c <> EmptyString.
Proof.
  cbn. destruct (String.eqb_spec c EmptyString); cbn; split; congruence.
Qed.





(** C9.  The user message of a call is built [pending] and is the first of
    the two messages the call appends.  When the call fulfils, the second
    one is the completed agent message, and the user message is as it was
    built; however many calls follow, it stays at its index, unchanged and
    still [pending]. *)
Theorem user_message_stays_pending (message : Input) (world : Answers) (this : t) :
  let this' := snd (sendMessage message world this) in
  let user := userMessage_of message world this in
  role user = ui_user
  /\ status user = pending
  /\ (exists agent, history this' = history this ++ [user; agent])
  /\ (forall response,
        awaited message world this = Fulfilled response ->
        fst (sendMessage message world this) = Fulfilled tt
        /\ history this'
           = history this ++ [user; agentMessage_completed message world this response]
        /\ status (agentMessage_completed message world this response) = completed)
  /\ (forall later : list Call,
        history (run later this') !! length (history this) = Some user).
Proof.
  intros this' user.
  assert (exists agent, history this' = history this ++ [user; agent]) as Hhistory.
  { subst this'. pose proof (sendMessage_settles message world this) as H.
    destruct (awaited message world this); rewrite H; cbn; eauto. }
  do 2 (split; [done|]).
  split; [done|].
  split.
  - intros response Hawaited. subst this'.
    by rewrite (sendMessage_fulfilled _ _ _ _ Hawaited).
  - intros later. destruct Hhistory as [agent Hhistory].
    eapply prefix_lookup_Some; [|apply history_run_prefix].
    rewrite Hhistory, lookup_app_r by lia.
    by rewrite Nat.sub_diag.
Qed.

(** C10.  Both messages a call appends carry the context id the service
    had when the call was entered, and the completed agent message still
    carries it when the response supplied another one, which by then is the
    service's context id.  On a fresh service that fulfils with a context
    id, both stored messages carry the empty one. *)
Theorem messages_keep_entry_context_id :
  (forall message world this,
     exists user agent,
       history (snd (sendMessage message world this)) = history this ++ [user; agent]
       /\ context_id user = contextId this
       /\ context_id agent = contextId this
       /\ forall response c,
            awaited message world this = Fulfilled response ->
            newContextId (result response) = Some c ->
            c <> EmptyString ->
            status agent = completed
            /\ contextId (snd (sendMessage message world this)) = c)
  /\ (forall a2aService processor message world response c,
        awaited message world (create a2aService processor) = Fulfilled response ->
        newContextId (result response) = Some c ->
        c <> EmptyString ->
        exists user agent,
          history (snd (sendMessage message world (create a2aService processor)))
          = [user; agent]
          /\ status agent = completed
          /\ context_id user = EmptyString
          /\ context_id agent = EmptyString
          /\ contextId (snd (sendMessage message world (create a2aService processor)))
             = c).
Proof.
  split.
  - intros message world this.
    pose proof (sendMessage_settles message world this) as H.
    destruct (awaited message world this) as [response|e] eqn:Hawaited; rewrite H.
    + exists (userMessage_of message world this),
             (agentMessage_completed message world this response).
      do 3 (split; [done|]).
      intros ? c [= <-] Hc Hne. split; [done|]. cbn. rewrite Hc.
      by apply truthy_string_Some in Hne as ->.
    + exists (userMessage_of message world this), (agentMessage_of message world this).
      by do 3 (split; [done|]).
  - intros a2aService processor message world response c Hawaited Hc Hne.
    rewrite (sendMessage_fulfilled _ _ _ _ Hawaited).
    exists (userMessage_of message world (create a2aService processor)),
           (agentMessage_completed message world (create a2aService processor) response).
    do 4 (split; [done|]). cbn. rewrite Hc.
    by apply truthy_string_Some in Hne as ->.
Qed.

Lemma messages_keep_entry_context_id_witness :
  exists user agent,
    history (snd (sendMessage (InputString "hi")
                    (Samples.answers Samples.hello_message) Samples.service))
    = [user; agent]
    /\ status agent = completed
    /\ context_id user = EmptyString
    /\ context_id agent = EmptyString
    /\ contextId (snd (sendMessage (InputString "hi")
                         (Samples.answers Samples.hello_message) Samples.service))
       = "ctx-1".
Proof.
  exact (proj2 messages_keep_entry_context_id
           Samples.a2aService {| ModelProcessor.batches := [] |}
           (InputString "hi") (Samples.answers Samples.hello_message)
           _ "ctx-1" eq_refl eq_refl ltac:(discriminate)).
Defined.

End Calls.

(** ** Classifying the response and routing its parts *)

Section Parts.
Import ChatService Run.

(** C6.  For a task, the parts are those of the status message (none when
    it is absent), then those of each artifact, artifacts in array order
    and each artifact's parts in their own order (none when the task has
    no artifact array).  For a message they are the message's parts. *)
Theorem classification_order :
  (forall task : Task,
     agentResponseParts (ResultTask task)
     = match TaskStatus_message (Task_status task) with
       | Some message => Message_parts message
       | None => []
       end
       ++ match Task_artifacts task with
          | Some artifacts => concat (map Artifact_parts artifacts)
          | None => []
          end)
  /\ (forall message : Message,
        agentResponseParts (ResultMessage message) = Message_parts message).
Proof.
  split; [|done].
  intros task. cbn [agentResponseParts].
  destruct (TaskStatus_message (Task_status task)) as [message|],
           (Task_artifacts task) as [artifacts|]; cbn [default fmap option_fmap option_map].
  all: by rewrite ?flat_map_concat_map.
Qed.

(** The commands of a list of parts are those of its pieces, in order. *)
Lemma a2uiDataParts_app (parts parts' : list Part) :
  a2uiDataParts (parts ++ parts') = a2uiDataParts parts ++ a2uiDataParts parts'.
Proof. apply omap_app. Qed.

Lemma a2uiDataParts_cons (part : Part) (parts : list Part) :
  a2uiDataParts (part :: parts)
  = match a2uiDataPart part with
    | Some command => command :: a2uiDataParts parts
    | None => a2uiDataParts parts
    end.
Proof. reflexivity. Qed.

(** The contents pushed for a list of parts wrap the shown parts, in order. *)
Lemma agentContents_data (parts : list Part) (this : t) :
  exists pushed,
    fst (agentContents parts this) = Fulfilled pushed
    /\ data <$> pushed = filter (fun part => shown part = true) parts.
Proof.
  unfold agentContents. rewrite map_M_content_of_run.
  eexists; split; [done|].
  generalize (uuids this).
  induction (filter _ parts) as [|part shown_parts IH]; intros n; [done|].
  cbn [numbered]. by rewrite fmap_cons, IH.
Qed.

(** What a fulfilled call hands to the processor and to the agent message. *)
Lemma sendMessage_routes (message : Input) (world : Answers) (this : t)
    (response : SendMessageSuccessResponse) :
  awaited message world this = Fulfilled response ->
  let this' := snd (sendMessage message world this) in
  let parts := agentResponseParts (result response) in
  ModelProcessor.batches (processor this')
  = ModelProcessor.batches (processor this) ++ [a2uiDataParts parts]
  /\ exists agent,
       last (history this') = Some agent
       /\ data <$> contents agent = filter (fun part => shown part = true) parts.
Proof.
  intros Hawaited this' parts. subst this'.
  rewrite (sendMessage_fulfilled _ _ _ _ Hawaited).
  split; [done|].
  exists (agentMessage_completed message world this response).
  split.
  - cbn [snd resumed history].
    by rewrite (last_app_cons _ [_]), last_cons.
  - cbn [agentMessage_completed contents]. fold parts.
    generalize (S (agent_id message this)).
    induction (filter _ parts) as [|part shown_parts IH]; intros n; [done|].
    cbn [numbered]. by rewrite fmap_cons, IH.
Qed.

Lemma get_singleton (key : string) (v : JSValue) :
  get {[ key := v ]} key = v.
Proof. unfold get. by rewrite lookup_singleton_eq. Qed.

Lemma has_singleton (key : string) (v : JSValue) :
  has key {[ key := v ]} = true.
Proof. unfold has. apply bool_decide_eq_true. rewrite lookup_singleton_eq. eauto. Qed.

(** C7, as amended.  A part [{kind:'data', data:{beginRendering:X}}] whose
    [X] is truthy contributes the command [{beginRendering:X}] once to the
    batch, at the part's place among the commands, and one content whose
    [data] is the part itself, at the part's place among the shown parts.
    A fulfilled call hands that batch to the processor and pushes those
    contents onto the agent message. *)
Theorem beginRendering_in_both
    (X : JSValue) (metadata : option JSObject) (before after : list Part) :
  truthy X = true ->
  let part := DataPart {[ "beginRendering" := X ]} metadata in
  let parts := before ++ part :: after in
  a2uiDataParts parts
  = a2uiDataParts before ++ beginRendering X :: a2uiDataParts after
  /\ filter (fun part => shown part = true) parts
     = filter (fun part => shown part = true) before
       ++ part :: filter (fun part => shown part = true) after
  /\ (forall this, exists pushed,
        fst (agentContents parts this) = Fulfilled pushed
        /\ data <$> pushed
           = filter (fun part => shown part = true) before
             ++ part :: filter (fun part => shown part = true) after)
  /\ (forall message world this response,
        awaited message world this = Fulfilled response ->
        agentResponseParts (result response) = parts ->
        ModelProcessor.batches (processor (snd (sendMessage message world this)))
        = ModelProcessor.batches (processor this)
          ++ [a2uiDataParts before ++ beginRendering X :: a2uiDataParts after]
        /\ exists agent,
             last (history (snd (sendMessage message world this))) = Some agent
             /\ data <$> contents agent
                = filter (fun part => shown part = true) before
                  ++ part :: filter (fun part => shown part = true) after).
Proof.
  intros HX part parts.
  assert (a2uiDataParts parts
          = a2uiDataParts before ++ beginRendering X :: a2uiDataParts after)
    as Hcommands.
  { subst parts part. rewrite a2uiDataParts_app, a2uiDataParts_cons.
    cbn [a2uiDataPart]. by rewrite get_singleton, HX. }
  assert (filter (fun part => shown part = true) parts
          = filter (fun part => shown part = true) before
            ++ part :: filter (fun part => shown part = true) after)
    as Hshown.
  { subst parts part. rewrite filter_app, filter_cons_True; [done|].
    cbn [shown]. apply has_singleton. }
  split; [done|]. split; [done|]. split.
  - intros this. destruct (agentContents_data parts this) as (pushed & Hrun & Hdata).
    exists pushed. by rewrite <- Hshown.
  - intros message world this response Hawaited Hparts.
    destruct (sendMessage_routes _ _ _ _ Hawaited) as (Hbatch & agent & Hlast & Hdata).
    rewrite Hparts in Hbatch, Hdata. fold parts in Hbatch, Hdata.
    rewrite Hbatch, Hcommands. split; [done|].
    exists agent. by rewrite <- Hshown.
Qed.

Lemma beginRendering_in_both_witness :
  a2uiDataParts [Samples.hello; Samples.beginRendering_chart; Samples.update_and_delete]
  = a2uiDataParts [Samples.hello]
    ++ beginRendering (JObj {[ "surfaceId" := JStr "chart"; "root" := JStr "root" ]})
       :: a2uiDataParts [Samples.update_and_delete]
  /\ filter (fun part => shown part = true)
       [Samples.hello; Samples.beginRendering_chart; Samples.update_and_delete]
     = filter (fun part => shown part = true) [Samples.hello]
       ++ Samples.beginRendering_chart
          :: filter (fun part => shown part = true) [Samples.update_and_delete].
Proof.
  pose proof (beginRendering_in_both
                (JObj {[ "surfaceId" := JStr "chart"; "root" := JStr "root" ]})
                None [Samples.hello] [Samples.update_and_delete] eq_refl) as H.
  cbv zeta in H.
  exact (conj (proj1 H) (proj1 (proj2 H))).
Defined.

(** C7, as stated, fails when [X] is falsy: for
    [{kind:'data', data:{beginRendering: null}}] no command is sent, while
    the part is still shown. *)
Lemma beginRendering_null_sends_no_command :
  a2uiDataParts [Samples.beginRendering_null] = []
  /\ a2uiDataParts [Samples.beginRendering_null] <> [beginRendering JNull]
  /\ filter (fun part => shown part = true) [Samples.beginRendering_null]
     = [Samples.beginRendering_null].
Proof.
  assert (a2uiDataParts [Samples.beginRendering_null] = []) as H
    by (vm_compute; reflexivity).
  split; [exact H|]. split; [by rewrite H|].
  vm_compute; reflexivity.
Qed.

(** C8.  In the batch of commands made from a list of parts, a data part
    stands, at its place, for the command of the first key, in the order
    [beginRendering], [surfaceUpdate], [dataModelUpdate], [deleteSurface],
    whose value is truthy, and for nothing when no value is: a part with
    several truthy keys gives one command, that of the first of them.  A
    part whose [beginRendering] key is present with a falsy value gives no
    [beginRendering] command, and is shown all the same: one content
    wrapping it is pushed, at its place among the shown parts.  A fulfilled
    call hands that batch to the processor and pushes those contents onto
    the agent message. *)
Theorem command_priority
    (payload : JSObject) (metadata : option JSObject) (before after : list Part) :
  let part := DataPart payload metadata in
  let value := get payload in
  let parts := before ++ part :: after in
  (truthy (value "beginRendering") = true ->
   a2uiDataParts parts
   = a2uiDataParts before
     ++ beginRendering (value "beginRendering") :: a2uiDataParts after)
  /\ (truthy (value "beginRendering") = false ->
      truthy (value "surfaceUpdate") = true ->
      a2uiDataParts parts
      = a2uiDataParts before
        ++ surfaceUpdate (value "surfaceUpdate") :: a2uiDataParts after)
  /\ (truthy (value "beginRendering") = false ->
      truthy (value "surfaceUpdate") = false ->
      truthy (value "dataModelUpdate") = true ->
      a2uiDataParts parts
      = a2uiDataParts before
        ++ dataModelUpdate (value "dataModelUpdate") :: a2uiDataParts after)
  /\ (truthy (value "beginRendering") = false ->
      truthy (value "surfaceUpdate") = false ->
      truthy (value "dataModelUpdate") = false ->
      truthy (value "deleteSurface") = true ->
      a2uiDataParts parts
      = a2uiDataParts before
        ++ deleteSurface (value "deleteSurface") :: a2uiDataParts after)
  /\ (truthy (value "beginRendering") = false ->
      truthy (value "surfaceUpdate") = false ->
      truthy (value "dataModelUpdate") = false ->
      truthy (value "deleteSurface") = false ->
      a2uiDataParts parts = a2uiDataParts before ++ a2uiDataParts after)
  /\ length (a2uiDataParts parts)
     <= length (a2uiDataParts before) + 1 + length (a2uiDataParts after)
  /\ (has "beginRendering" payload = true ->
      truthy (value "beginRendering") = false ->
      (forall X, beginRendering X ∉ a2uiDataParts [part])
      /\ filter (fun part => shown part = true) parts
         = filter (fun part => shown part = true) before
           ++ part :: filter (fun part => shown part = true) after
      /\ forall this, exists pushed,
           fst (agentContents parts this) = Fulfilled pushed
           /\ data <$> pushed
              = filter (fun part => shown part = true) before
                ++ part :: filter (fun part => shown part = true) after)
  /\ (forall message world this response,
        awaited message world this = Fulfilled response ->
        agentResponseParts (result response) = parts ->
        ModelProcessor.batches (processor (snd (sendMessage message world this)))
        = ModelProcessor.batches (processor this) ++ [a2uiDataParts parts]
        /\ exists agent,
             last (history (snd (sendMessage message world this))) = Some agent
             /\ data <$> contents agent
                = filter (fun part => shown part = true) parts).
Proof.
  intros part value parts.
  assert (a2uiDataParts parts
          = a2uiDataParts before
            ++ match a2uiDataPart part with
               | Some command => command :: a2uiDataParts after
               | None => a2uiDataParts after
               end) as Hbatch.
  { subst parts. by rewrite a2uiDataParts_app, a2uiDataParts_cons. }
  subst value. cbn [part a2uiDataPart] in Hbatch.
  split; [by intros H; rewrite H in Hbatch|].
  split; [by intros H1 H2; rewrite H1, H2 in Hbatch|].
  split; [by intros H1 H2 H3; rewrite H1, H2, H3 in Hbatch|].
  split; [by intros H1 H2 H3 H4; rewrite H1, H2, H3, H4 in Hbatch|].
  split; [by intros H1 H2 H3 H4; rewrite H1, H2, H3, H4 in Hbatch|].
  split.
  { rewrite Hbatch, length_app.
    repeat (case (truthy _); [cbn [length]; lia|]). lia. }
  split.
  - intros Hhas Hfalsy.
    assert (filter (fun part => shown part = true) parts
            = filter (fun part => shown part = true) before
              ++ part :: filter (fun part => shown part = true) after) as Hshown.
    { subst parts. rewrite filter_app, filter_cons_True; [done|]. exact Hhas. }
    split.
    { intros X. rewrite a2uiDataParts_cons. cbn [part a2uiDataPart]. rewrite Hfalsy.
      repeat (case (truthy _);
              [rewrite list_elem_of_singleton; discriminate|]).
      apply not_elem_of_nil. }
    split; [done|].
    intros this. destruct (agentContents_data parts this) as (pushed & Hrun & Hdata).
    exists pushed. by rewrite <- Hshown.
  - intros message world this response Hawaited Hparts.
    destruct (sendMessage_routes _ _ _ _ Hawaited) as (Hsent & agent & Hlast & Hdata).
    rewrite Hparts in Hsent, Hdata. split; [done|]. by exists agent.
Qed.

Lemma command_priority_witness :
  a2uiDataParts [Samples.hello; Samples.update_and_delete; Samples.beginRendering_chart]
  = a2uiDataParts [Samples.hello]
    ++ surfaceUpdate (JObj {[ "surfaceId" := JStr "chart" ]})
       :: a2uiDataParts [Samples.beginRendering_chart]
  /\ (forall X, beginRendering X ∉ a2uiDataParts [Samples.beginRendering_null])
  /\ filter (fun part => shown part = true)
       [Samples.hello; Samples.beginRendering_null; Samples.update_and_delete]
     = filter (fun part => shown part = true) [Samples.hello]
       ++ Samples.beginRendering_null
          :: filter (fun part => shown part = true) [Samples.update_and_delete].
Proof.
  pose proof (command_priority
                {[ "deleteSurface" := JObj {[ "surfaceId" := JStr "chart" ]};
                   "surfaceUpdate" := JObj {[ "surfaceId" := JStr "chart" ]} ]}
                None [Samples.hello] [Samples.beginRendering_chart]) as Hfirst.
  pose proof (command_priority {[ "beginRendering" := JNull ]} None
                [Samples.hello] [Samples.update_and_delete]) as Hfalsy.
  cbv zeta in Hfirst, Hfalsy.
  destruct Hfirst as (_ & Hfirst & _).
  destruct Hfalsy as (_ & _ & _ & _ & _ & _ & Hfalsy & _).
  destruct (Hfalsy eq_refl eq_refl) as (Hnone & Hshown & _).
  exact (conj (Hfirst eq_refl eq_refl) (conj Hnone Hshown)).
Defined.

End Parts.

(** ** Scenarios

    The model run on concrete inputs. *)

Section Scenarios.
Import ChatService.

(** The user sends ["hi"] and the agent answers with a message holding one
    text part: the history gains the pending user message and the completed
    agent message whose single content is that part, the batch handed to
    the processor is empty, and the context id is the one supplied. *)
Example scenario_text_reply :
  sendMessage (InputString "hi") (Samples.answers Samples.hello_message) Samples.service
  = (Fulfilled tt,
     {| a2aService := Samples.a2aService;
        processor := {| ModelProcessor.batches := [[]] |};
        surfaces := [[]];
        history :=
          [ {| id := 0; context_id := EmptyString; role := ui_user;
               contents := [ {| UiMessageContent_id := 1;
                                data := TextPart "hi" None |} ];
               status := pending;
               created := "2025-11-03T10:00:00.000Z";
               lastUpdated := "2025-11-03T10:00:00.000Z" |};
            {| id := 2; context_id := EmptyString;
               role := ui_agent "MyCharts Agent" "rizz-agent.png";
               contents := [ {| UiMessageContent_id := 3; data := Samples.hello |} ];
               status := completed;
               created := "2025-11-03T10:00:00.000Z";
               lastUpdated := "2025-11-03T10:00:01.000Z" |} ];
        contextId := "ctx-1";
        isA2aStreamOpen := false;
        uuids := 4 |}).
Proof. vm_compute. reflexivity. Qed.

(** The transport rejects with [Error("boom")]: so does the call, and the
    agent message stays as it was appended. *)
Example scenario_boom :
  sendMessage (InputString "hi") (Samples.answers Samples.boom) Samples.service
  = (Rejected (Error "boom"),
     {| a2aService := Samples.a2aService;
        processor := {| ModelProcessor.batches := [] |};
        surfaces := [];
        history :=
          [ {| id := 0; context_id := EmptyString; role := ui_user;
               contents := [ {| UiMessageContent_id := 1;
                                data := TextPart "hi" None |} ];
               status := pending;
               created := "2025-11-03T10:00:00.000Z";
               lastUpdated := "2025-11-03T10:00:00.000Z" |};
            {| id := 2; context_id := EmptyString;
               role := ui_agent "MyCharts Agent" "rizz-agent.png";
               contents := [];
               status := pending;
               created := "2025-11-03T10:00:00.000Z";
               lastUpdated := "2025-11-03T10:00:00.000Z" |} ];
        contextId := EmptyString;
        isA2aStreamOpen := true;
        uuids := 3 |}).
Proof. vm_compute. reflexivity. Qed.

(** A client event with no [userAction] gives a user message with no
    contents, and its part is sent as a data part. *)
Example scenario_event_without_label :
  fst (createUserMessageContents
         (InputEvent {| userAction := None; A2UIClientEventMessage_rest := ∅ |})
         Samples.service)
  = Fulfilled []
  /\ createUserMessagePart
       (InputEvent {| userAction := None; A2UIClientEventMessage_rest := ∅ |})
     = DataPart ∅ (Some {[ "mimeType" := JStr "application/json+a2ui" ]}).
Proof. split; reflexivity. Qed.

(** [{kind:'data', data:{surfaceUpdate:X}}] with [X] truthy: one command,
    no content. *)
Lemma surfaceUpdate_only (X : JSValue) (metadata : option JSObject) :
  truthy X = true ->
  a2uiDataParts [DataPart {[ "surfaceUpdate" := X ]} metadata] = [surfaceUpdate X]
  /\ filter (fun part => shown part = true)
       [DataPart {[ "surfaceUpdate" := X ]} metadata] = [].
Proof.
  intros HX. split.
  - cbn [a2uiDataParts omap list_omap a2uiDataPart].
    assert (get {[ "surfaceUpdate" := X ]} "beginRendering" = JUndefined) as ->.
    { unfold get. by rewrite lookup_singleton_ne. }
    by rewrite get_singleton, HX.
  - rewrite filter_cons_False; [done|].
    cbn [shown]. unfold has. rewrite lookup_singleton_ne by done.
    rewrite bool_decide_eq_false_2; [done|]. by intros [? ?].
Qed.

(** [{kind:'data', data:{unknownKey:1}}]: neither a command nor a content. *)
Example scenario_unknown_key :
  a2uiDataParts [DataPart {[ "unknownKey" := JNum 1 ]} None] = []
  /\ filter (fun part => shown part = true)
       [DataPart {[ "unknownKey" := JNum 1 ]} None] = [].
Proof. split; vm_compute; reflexivity. Qed.

(** A file part is neither a command nor a content. *)
Lemma file_part_dropped (file : JSObject) (metadata : option JSObject) :
  a2uiDataParts [FilePart file metadata] = []
  /\ filter (fun part => shown part = true) [FilePart file metadata] = [].
Proof. split; reflexivity. Qed.

End Scenarios.

(** * Further properties *)

(** ** The transport, beyond failing responses *)

Section TransportOutcomes.
Import A2aService.

(** [sendMessage] fulfils exactly when [fetch] fulfils with an [ok]
    response whose body parses, and then with that body, as parsed. *)
Theorem transport_fulfils_iff
    (this : A2aService.t) (request : list Part) (contextId : option string)
    (fetch : Fetch) (body : SendMessageSuccessResponse) :
  sendMessage this request contextId fetch = Fulfilled body
  <-> fetch {| parts := request;
               metadata_clientUiCapabilities_supportedCatalogUris :=
                 supportedCatalogUris this;
               context_id := contextId |}
      = Fulfilled (ResponseOk (Fulfilled body)).
Proof.
  unfold sendMessage.
  destruct (fetch _) as [[[body'|e]|[failure|e]]|e]; split; intros H;
    try (discriminate H || by simplify_eq).
  by destruct (error failure).
Qed.


End TransportOutcomes.

(** ** One call, beyond the history's length *)

Section CallFacts.
Import ChatService Run.

(** A call asks the network one question: the body built at entry, with
    the single part made from the message, the catalog list of the service
    and the context id the service holds at entry.  Two worlds that answer
    that body alike, and read the same clock, give the same call. *)
Theorem request_is_fixed_at_entry
    (message : Input) (world world' : Answers) (this : t) :
  let body :=
    {| A2aService.parts := [createUserMessagePart message];
       A2aService.metadata_clientUiCapabilities_supportedCatalogUris :=
         A2aService.supportedCatalogUris (a2aService this);
       A2aService.context_id := Some (contextId this) |} in
  now world = now world' ->
  later world = later world' ->
  fetch world body = fetch world' body ->
  sendMessage message world this = sendMessage message world' this.
Proof.
  intros body Hnow Hlater Hfetch.
  assert (awaited message world this = awaited message world' this) as Hawaited.
  { unfold awaited, A2aService.sendMessage. fold body. by rewrite Hfetch. }
  pose proof (sendMessage_settles message world this) as H.
  pose proof (sendMessage_settles message world' this) as H'.
  rewrite <- Hawaited in H'.
  destruct (awaited message world this) as [response|e]; rewrite H, H'.
  - unfold resumed, userMessage_of, agentMessage_completed.
    by rewrite Hnow, Hlater.
  - unfold suspended, userMessage_of, agentMessage_of. by rewrite Hnow.
Qed.

Lemma request_is_fixed_at_entry_witness :
  sendMessage (InputString "hi") (Samples.answers Samples.boom) Samples.service
  = sendMessage (InputString "hi")
      {| now := "2025-11-03T10:00:00.000Z";
         fetch := MoreSamples.by_context_id;
         later := "2025-11-03T10:00:01.000Z" |}
      Samples.service.
Proof.
  exact (request_is_fixed_at_entry (InputString "hi")
           (Samples.answers Samples.boom)
           {| now := "2025-11-03T10:00:00.000Z";
              fetch := MoreSamples.by_context_id;
              later := "2025-11-03T10:00:01.000Z" |}
           Samples.service eq_refl eq_refl eq_refl).
Defined.

(** How a call settles, by how the awaited transport call does. *)
Lemma sendMessage_outcome (message : Input) (world : Answers) (this : t) :
  fst (sendMessage message world this)
  = match awaited message world this with
    | Fulfilled _ => Fulfilled tt
    | Rejected e => Rejected e
    end.
Proof.
  pose proof (sendMessage_settles message world this) as H.
  destruct (awaited message world this); by rewrite H.
Qed.

(** The user message of a call is the element the history gains first. *)
Lemma user_message_lookup (message : Input) (world : Answers) (this : t) :
  history (snd (sendMessage message world this)) !! length (history this)
  = Some (userMessage_of message world this).
Proof.
  pose proof (sendMessage_settles message world this) as H.
  destruct (awaited message world this); rewrite H; cbn [snd resumed suspended history].
  all: by rewrite lookup_app_r, Nat.sub_diag by lia.
Qed.

(** A string message, the empty string included, gives a user message with
    exactly one content, and that content wraps the text part that is sent
    to the agent. *)
Theorem string_message_is_shown_as_sent (text : string) (world : Answers) (this : t) :
  exists user,
    history (snd (sendMessage (InputString text) world this)) !! length (history this)
    = Some user
    /\ role user = ui_user
    /\ data <$> contents user = [createUserMessagePart (InputString text)]
    /\ createUserMessagePart (InputString text) = TextPart text None.
Proof.
  exists (userMessage_of (InputString text) world this).
  by rewrite user_message_lookup.
Qed.

(** A client event is sent as a data part holding the event, tagged with
    the A2UI mime type, but the history never shows that part: the user
    message holds one text content with the name of the user action when
    there is one and it is not empty, and no content otherwise. *)
Theorem event_message_is_shown_by_name
    (event : A2UIClientEventMessage) (world : Answers) (this : t) :
  exists user,
    history (snd (sendMessage (InputEvent event) world this)) !! length (history this)
    = Some user
    /\ role user = ui_user
    /\ data <$> contents user
       = match userAction event with
         | Some action =>
             if decide (name action = EmptyString) then []
             else [TextPart (name action) None]
         | None => []
         end
    /\ createUserMessagePart (InputEvent event)
       = DataPart (as_any event)
                  (Some {[ "mimeType" := JStr "application/json+a2ui" ]}).
Proof.
  exists (userMessage_of (InputEvent event) world this).
  rewrite user_message_lookup. do 2 (split; [done|]). split; [|done].
  cbn [userMessage_of contents user_contents].
  destruct (userAction event) as [action|]; [|done].
  cbn [fmap option_fmap option_map truthy_string].
  destruct (String.eqb_spec (name action) EmptyString) as [Heq|Hne].
  - by rewrite decide_True.
  - by rewrite decide_False.
Qed.

(** What a call does to the processor.  A call whose transport rejects
    leaves it as it was.  A call that fulfils has handed it exactly one
    batch, the commands of the parts of the response it received, also when
    there are none. *)
Theorem one_batch_per_fulfilled_call (this : t) (call : Call) :
  (forall e,
     awaited (message call) (world call) this = Rejected e ->
     processor (after this call) = processor this)
  /\ (fst (sendMessage (message call) (world call) this) = Fulfilled tt ->
      exists response,
        awaited (message call) (world call) this = Fulfilled response
        /\ ModelProcessor.batches (processor (after this call))
           = ModelProcessor.batches (processor this)
             ++ [a2uiDataParts (agentResponseParts (result response))]).
Proof.
  rewrite after_settled, sendMessage_outcome.
  destruct (awaited _ _ this) as [response|e]; split.
  - discriminate.
  - intros _. by exists response.
  - done.
  - discriminate.
Qed.

(** After a call that no other call overlaps, the stream-open flag tells
    how that call ended, whatever the flag was before: it is set exactly
    when the call rejected, and clear exactly when it fulfilled.  So a flag
    left set by a rejected call is cleared by the next call that fulfils. *)
Theorem stream_flag_tells_last_outcome (this : t) (call : Call) :
  (isA2aStreamOpen (after this call) = true
   <-> exists e, fst (sendMessage (message call) (world call) this) = Rejected e)
  /\ (isA2aStreamOpen (after this call) = false
      <-> fst (sendMessage (message call) (world call) this) = Fulfilled tt).
Proof.
  rewrite after_settled, sendMessage_outcome.
  destruct (awaited _ _ this) as [response|e]; cbn; repeat split.
  all: try discriminate; try done; eauto.
  by intros [e [=]].
Qed.

(** A fulfilled call whose response holds no part to show, an empty task
    or a response of surface updates only for instance, still completes
    the agent message, with no contents. *)
Theorem nothing_shown_still_completes
    (message : Input) (world : Answers) (this : t)
    (response : SendMessageSuccessResponse) :
  awaited message world this = Fulfilled response ->
  Forall (fun part => shown part = false) (agentResponseParts (result response)) ->
  exists agent,
    last (history (snd (sendMessage message world this))) = Some agent
    /\ status agent = completed
    /\ contents agent = [].
Proof.
  intros Hawaited Hnone.
  rewrite (sendMessage_fulfilled _ _ _ _ Hawaited).
  exists (agentMessage_completed message world this response).
  split; [|split; [done|]].
  - cbn [snd resumed history]. by rewrite (last_app_cons _ [_]), last_cons.
  - cbn [agentMessage_completed contents].
    replace (filter _ (agentResponseParts (result response))) with (@nil Part); [done|].
    symmetry. induction Hnone as [|part parts Hpart _ IH]; [done|].
    rewrite filter_cons_False; [done|]. by rewrite Hpart.
Qed.

Lemma nothing_shown_still_completes_witness :
  exists agent,
    last (history (snd (sendMessage (InputString "chart")
                          (Samples.answers MoreSamples.chart_task) Samples.service)))
    = Some agent
    /\ status agent = completed
    /\ contents agent = [].
Proof.
  apply (nothing_shown_still_completes (InputString "chart")
           (Samples.answers MoreSamples.chart_task) Samples.service _ eq_refl).
  repeat constructor.
Defined.

(** Text parts are all shown and none of them is a command. *)
Lemma text_parts_all_shown (parts : list Part) :
  Forall (fun part => exists text metadata, part = TextPart text metadata) parts ->
  filter (fun part => shown part = true) parts = parts.
Proof.
  induction 1 as [|part parts (text & metadata & ->) _ IH]; [done|].
  rewrite filter_cons_True by done. by rewrite IH.
Qed.

Lemma text_parts_no_command (parts : list Part) :
  Forall (fun part => exists text metadata, part = TextPart text metadata) parts ->
  a2uiDataParts parts = [].
Proof.
  induction 1 as [|part parts (text & metadata & ->) _ IH]; [done|].
  by rewrite a2uiDataParts_cons.
Qed.

(** A reply made of text parts only is shown whole and in order, and the
    batch handed to the processor is empty. *)
Theorem text_reply_is_shown_whole
    (message : Input) (world : Answers) (this : t)
    (response : SendMessageSuccessResponse) :
  awaited message world this = Fulfilled response ->
  Forall (fun part => exists text metadata, part = TextPart text metadata)
         (agentResponseParts (result response)) ->
  (exists agent,
     last (history (snd (sendMessage message world this))) = Some agent
     /\ status agent = completed
     /\ data <$> contents agent = agentResponseParts (result response))
  /\ ModelProcessor.batches (processor (snd (sendMessage message world this)))
     = ModelProcessor.batches (processor this) ++ [[]].
Proof.
  intros Hawaited Htexts.
  pose proof (text_parts_all_shown _ Htexts) as Hshown.
  pose proof (text_parts_no_command _ Htexts) as Hnone.
  destruct (sendMessage_routes _ _ _ _ Hawaited) as (Hbatch & agent & Hlast & Hdata).
  cbv zeta in Hbatch, Hlast, Hdata.
  split.
  - exists agent. split; [done|]. split; [|by rewrite Hdata, Hshown].
    rewrite (sendMessage_fulfilled _ _ _ _ Hawaited) in Hlast.
    cbn [snd resumed history] in Hlast.
    rewrite (last_app_cons _ [_]), last_cons in Hlast. by injection Hlast as <-.
  - by rewrite Hbatch, Hnone.
Qed.

Lemma text_reply_is_shown_whole_witness :
  ModelProcessor.batches
    (processor (snd (sendMessage (InputString "hi")
                       (Samples.answers Samples.hello_message) Samples.service)))
  = ModelProcessor.batches (processor Samples.service) ++ [[]].
Proof.
  apply (text_reply_is_shown_whole (InputString "hi")
           (Samples.answers Samples.hello_message) Samples.service _ eq_refl).
  repeat constructor. by exists "hello", None.
Defined.

End CallFacts.

(** ** Runs of calls, beyond the context id *)

Section RunFacts.
Import ChatService Run.


Lemma run_history_length (calls : list Call) (this : t) :
  length (history (run calls this)) = length (history this) + 2 * length calls.
Proof.
  revert this. induction calls as [|call calls IH]; intros this.
  - cbn. lia.
  - rewrite run_cons, IH.
    destruct (history_after this call) as (user & agent & ->).
    rewrite length_app. cbn. lia.
Qed.

(** A run of [n] calls makes the history [2 * n] longer, whichever of them
    fulfil and whichever reject. *)
Theorem history_length_after_run (calls : list Call) (this : t) :
  length (history (run calls this)) = length (history this) + 2 * length calls
  /\ (forall call, length (history (after this call)) = length (history this) + 2).
Proof.
  split; [apply run_history_length|].
  intros call. destruct (history_after this call) as (user & agent & ->).
  rewrite length_app. cbn. lia.
Qed.

(** After a run, the messages of its [i]-th call sit at offsets [2 * i] and
    [2 * i + 1] of what the run appended: the user message as built when
    that call was entered, and the agent message, which is the one built
    at entry, still pending and without contents, when the call rejected,
    and the completed one, made from the response the call received, when
    the call fulfilled. *)
Theorem history_after_run (calls : list Call) (this : t) (i : nat) (call : Call) :
  calls !! i = Some call ->
  let entered := run (take i calls) this in
  history (run calls this) !! (length (history this) + 2 * i)
  = Some (userMessage_of (message call) (world call) entered)
  /\ (forall e,
        fst (sendMessage (message call) (world call) entered) = Rejected e ->
        history (run calls this) !! (length (history this) + 2 * i + 1)
        = Some (agentMessage_of (message call) (world call) entered))
  /\ (fst (sendMessage (message call) (world call) entered) = Fulfilled tt ->
      exists response,
        awaited (message call) (world call) entered = Fulfilled response
        /\ history (run calls this) !! (length (history this) + 2 * i + 1)
           = Some (agentMessage_completed (message call) (world call) entered
                     response)).
Proof.
  intros Hcall entered.
  assert (calls = take i calls ++ call :: drop (S i) calls) as Hsplit.
  { by rewrite <- (take_drop_middle calls i call) at 1. }
  assert (length (history entered) = length (history this) + 2 * i) as Hlength.
  { unfold entered. rewrite run_history_length, length_take.
    apply lookup_lt_Some in Hcall. lia. }
  assert (history (after entered call)
          = history entered
            ++ [userMessage_of (message call) (world call) entered;
                match awaited (message call) (world call) entered with
                | Fulfilled response =>
                    agentMessage_completed (message call) (world call) entered response
                | Rejected _ => agentMessage_of (message call) (world call) entered
                end]) as Hafter.
  { rewrite after_settled. by destruct (awaited _ _ entered). }
  assert (history (after entered call) `prefix_of` history (run calls this)) as Hprefix.
  { rewrite Hsplit at 1. rewrite run_app, run_cons. apply history_run_prefix. }
  assert (history (run calls this) !! (length (history this) + 2 * i + 1)
          = Some match awaited (message call) (world call) entered with
                 | Fulfilled response =>
                     agentMessage_completed (message call) (world call) entered response
                 | Rejected _ => agentMessage_of (message call) (world call) entered
                 end) as Hagent.
  { eapply prefix_lookup_Some; [|exact Hprefix].
    rewrite Hafter, lookup_app_r by lia.
    by replace (length (history this) + 2 * i + 1 - length (history entered))
      with 1 by lia. }
  split.
  { eapply prefix_lookup_Some; [|exact Hprefix].
    rewrite Hafter, lookup_app_r by lia. by rewrite <- Hlength, Nat.sub_diag. }
  rewrite sendMessage_outcome.
  destruct (awaited (message call) (world call) entered) as [response|e]; split.
  - discriminate.
  - intros _. by exists response.
  - done.
  - discriminate.
Qed.

Lemma history_after_run_witness :
  exists response,
    awaited (InputString "again") (Samples.answers Samples.hello_message)
      (run (take 1 [ {| message := InputString "hi";
                        world := Samples.answers Samples.boom |};
                     {| message := InputString "again";
                        world := Samples.answers Samples.hello_message |} ])
           Samples.service)
    = Fulfilled response
    /\ history (run [ {| message := InputString "hi";
                         world := Samples.answers Samples.boom |};
                      {| message := InputString "again";
                         world := Samples.answers Samples.hello_message |} ]
                    Samples.service)
       !! (length (history Samples.service) + 2 * 1 + 1)
       = Some (agentMessage_completed (InputString "again")
                 (Samples.answers Samples.hello_message)
                 (run (take 1 [ {| message := InputString "hi";
                                   world := Samples.answers Samples.boom |};
                                {| message := InputString "again";
                                   world := Samples.answers Samples.hello_message |} ])
                      Samples.service)
                 response).
Proof.
  pose proof (history_after_run
                [ {| message := InputString "hi";
                     world := Samples.answers Samples.boom |};
                  {| message := InputString "again";
                     world := Samples.answers Samples.hello_message |} ]
                Samples.service 1
                {| message := InputString "again";
                   world := Samples.answers Samples.hello_message |}
                eq_refl) as H.
  cbv zeta in H.
  exact (proj2 (proj2 H) ltac:(vm_compute; reflexivity)).
Defined.



(** Events delivered one after the other are each answered with exactly
    one terminal call, and the service ends as after the run of their
    [sendMessage] calls: an event whose call rejects does not keep later
    events from being handled. *)
Theorem every_event_is_answered (events : list Events.Event) (this : t) :
  length (fst (Events.deliver events this)) = length events
  /\ Forall (fun calls =>
               length (filter (fun call => ModelProcessor.terminal call = true) calls) = 1)
            (fst (Events.deliver events this))
  /\ snd (Events.deliver events this) = run (Events.call_of <$> events) this.
Proof.
  revert this. induction events as [|event events IH]; intros this.
  - by repeat split.
  - cbn [Events.deliver]. rewrite fmap_cons, run_cons.
    unfold on_event, after. cbn [Events.call_of message world].
    destruct (sendMessage (InputEvent (Events.event_message event))
                (Events.event_world event) this) as [[[]|err] this'].
    all: destruct (IH this') as (Hlength & Hterminal & Hstate).
    all: destruct (Events.deliver events this') as [rest this''].
    all: cbn [fst snd] in *.
    all: split; [cbn [length]; by f_equal|].
    all: split; [by constructor|done].
Qed.

End RunFacts.

(** ** Routing, beyond [beginRendering] *)

Section Routing.
Import ChatService Run.

(** The two projections by kind of part.  A text part is shown and is no
    command; a file part is neither.  A data part is a command exactly
    when one of the four recognised keys has a truthy value, and is shown
    exactly when its payload has a [beginRendering] key, whatever the
    value. *)
Theorem routing_by_kind :
  (forall text metadata,
     a2uiDataPart (TextPart text metadata) = None
     /\ shown (TextPart text metadata) = true)
  /\ (forall file metadata,
        a2uiDataPart (FilePart file metadata) = None
        /\ shown (FilePart file metadata) = false)
  /\ (forall payload metadata,
        (is_Some (a2uiDataPart (DataPart payload metadata))
         <-> exists key,
               key ∈ ["beginRendering"; "surfaceUpdate"; "dataModelUpdate"; "deleteSurface"]
               /\ truthy (get payload key) = true)
        /\ (shown (DataPart payload metadata) = true
            <-> is_Some (payload !! "beginRendering"))).
Proof.
  split; [done|]. split; [done|].
  intros payload metadata. split.
  - cbn [a2uiDataPart]. split.
    + intros Hsome.
      destruct (truthy (get payload "beginRendering")) eqn:H1;
        [exists "beginRendering"; split; [set_solver|done]|].
      destruct (truthy (get payload "surfaceUpdate")) eqn:H2;
        [exists "surfaceUpdate"; split; [set_solver|done]|].
      destruct (truthy (get payload "dataModelUpdate")) eqn:H3;
        [exists "dataModelUpdate"; split; [set_solver|done]|].
      destruct (truthy (get payload "deleteSurface")) eqn:H4;
        [exists "deleteSurface"; split; [set_solver|done]|].
      by destruct Hsome.
    + intros (key & Hkey & Htruthy).
      repeat (apply elem_of_cons in Hkey as [->|Hkey]);
        [..|by apply elem_of_nil in Hkey].
      all: rewrite ?Htruthy; repeat (case (truthy _); [by eexists|]); try by eexists.
      all: by rewrite Htruthy.
  - cbn [shown]. unfold has. apply bool_decide_eq_true.
Qed.

(** Both projections keep the order of the parts: the commands, and the
    shown parts, of a list are those of its front followed by those of its
    back.  Neither projection is longer than the list. *)
Theorem routing_keeps_order (front back : list Part) :
  a2uiDataParts (front ++ back) = a2uiDataParts front ++ a2uiDataParts back
  /\ (forall this, exists pushed,
        fst (agentContents (front ++ back) this) = Fulfilled pushed
        /\ data <$> pushed
           = filter (fun part => shown part = true) front
             ++ filter (fun part => shown part = true) back)
  /\ length (a2uiDataParts (front ++ back)) <= length (front ++ back)
  /\ (forall this pushed,
        fst (agentContents (front ++ back) this) = Fulfilled pushed ->
        length pushed <= length (front ++ back)).
Proof.
  split; [apply omap_app|]. split.
  { intros this.
    destruct (agentContents_data (front ++ back) this) as (pushed & Hrun & Hdata).
    exists pushed. by rewrite <- filter_app. }
  split.
  { generalize (front ++ back). intros parts.
    induction parts as [|part parts IH]; [done|].
    rewrite a2uiDataParts_cons. destruct (a2uiDataPart part); cbn; lia. }
  intros this pushed Hrun.
  destruct (agentContents_data (front ++ back) this) as (pushed' & Hrun' & Hdata).
  rewrite Hrun in Hrun'. injection Hrun' as <-.
  rewrite <- (length_fmap data), Hdata. apply length_filter.
Qed.

End Routing.

(** ** Calls in flight together *)

Module InFlightRun.
Import ChatService Run InFlight.

Lemma bindN_run {A B} (m : N A) (f : A -> N B) this :
  (m ≫= f) this =
  match m this with
  | (Fulfilled a, this') => f a this'
  | (Rejected e, this') => (Rejected e, this')
  end.
Proof. reflexivity. Qed.

Lemma retN_run {A} (a : A) this : (mret a : N A) this = (Fulfilled a, this).
Proof. reflexivity. Qed.

Lemma lift_run {A} (m : M A) this :
  lift m this =
  let (outcome, signals') := m (signals this) in
  (outcome,
   {| signals := signals'; objects := objects this; InFlight.history := InFlight.history this |}).
Proof. reflexivity. Qed.

Ltac run_N :=
  repeat first
    [ rewrite bindN_run | rewrite retN_run | rewrite lift_run
    | rewrite bind_run | rewrite ret_run | rewrite uuid_run | rewrite read_run
    | rewrite write_run | rewrite await_run
    | rewrite createUserMessageContents_run
    | progress cbn [signals objects InFlight.history new InFlight.history_update
                    a2aService processor surfaces ChatService.history contextId
                    isA2aStreamOpen uuids bump
                    newAgentMessage promise answers] ].

(** [begin], in closed form: the signals are those of [suspended], two
    objects are created and the history gains the references to them. *)
Lemma begin_run message world this :
  begin message world this =
  (Fulfilled {| newAgentMessage := S (length (objects this));
                promise := awaited message world (signals this);
                answers := world |},
   {| signals := with_history (ChatService.history (signals this))
                   (suspended message world (signals this));
      objects := objects this
                 ++ [userMessage_of message world (signals this);
                     agentMessage_of message world (signals this)];
      InFlight.history := InFlight.history this
                          ++ [length (objects this); S (length (objects this))] |}).
Proof.
  unfold begin, surfaces_refresh, isA2aStreamOpen_set.
  run_N.
  rewrite !Nat.add_1_r, length_app, <- app_assoc. cbn [length app].
  by rewrite Nat.add_1_r.
Qed.

(** [resume] when the awaited promise rejected: nothing runs. *)
Lemma resume_rejected suspended this e :
  promise suspended = Rejected e ->
  resume suspended this = (Rejected e, this).
Proof.
  intros H. unfold resume. run_N. rewrite H. by destruct this.
Qed.

(** [resume] when the awaited promise fulfilled and the reference held
    names an object. *)
Lemma resume_fulfilled suspended this response agent :
  promise suspended = Fulfilled response ->
  objects this !! newAgentMessage suspended = Some agent ->
  resume suspended this =
  (Fulfilled tt,
   {| signals := resumed_signals response (signals this);
      objects :=
        <[newAgentMessage suspended :=
            contents_push agent (pushed_contents response (signals this))]>
          (objects this)
        ++ [complete_copy
              (contents_push agent (pushed_contents response (signals this)))
              (later (answers suspended))];
      InFlight.history := removelast (InFlight.history this) ++ [length (objects this)] |}).
Proof.
  intros Hpromise Hagent.
  unfold resume, surfaces_refresh, isA2aStreamOpen_set, contextId_set,
    processor_processMessages, agentContents.
  run_N. rewrite Hpromise.
  destruct (truthy_string (newContextId (result response))) eqn:Hctx;
    run_N; rewrite map_M_content_of_run; run_N.
  all: unfold push; cbn [objects]; rewrite Hagent; run_N.
  all: rewrite length_insert.
  all: unfold resumed_signals, pushed_contents; cbn [ModelProcessor.getSurfaces].
  all: by rewrite ?Hctx.
Qed.

(** Reading a history through the references. *)
Lemma deref_ext (f g : Ref -> option UiMessage) (refs : list Ref) :
  Forall (fun ref => f ref = g ref) refs -> omap f refs = omap g refs.
Proof. intros H. apply list_omap_ext. by apply Forall_Forall2_diag. Qed.

Lemma deref_app (objects more : list UiMessage) (refs : list Ref) :
  Forall (fun ref => ref < length objects) refs ->
  omap (fun ref => (objects ++ more) !! ref) refs
  = omap (fun ref => objects !! ref) refs.
Proof.
  intros H. apply deref_ext. eapply Forall_impl; [exact H|].
  cbn. intros ref Href. by apply lookup_app_l.
Qed.

Lemma deref_insert (objects : list UiMessage) (k : nat) (x : UiMessage)
    (refs : list Ref) :
  Forall (fun ref => ref <> k) refs ->
  omap (fun ref => <[k := x]> objects !! ref) refs
  = omap (fun ref => objects !! ref) refs.
Proof.
  intros H. apply deref_ext. eapply Forall_impl; [exact H|].
  cbn. intros ref Href. by apply list_lookup_insert_ne.
Qed.

Lemma deref_seq (before objects : list UiMessage) :
  omap (fun ref => (before ++ objects) !! ref) (seq (length before) (length objects))
  = objects.
Proof.
  revert before. induction objects as [|x objects IH]; intros before; [done|].
  cbn [length seq]. csimpl.
  rewrite lookup_app_r, Nat.sub_diag by lia. csimpl.
  f_equal. specialize (IH (before ++ [x])).
  rewrite length_app, Nat.add_1_r, <- app_assoc in IH. exact IH.
Qed.

Lemma view_embed (service : ChatService.t) : view (embed service) = service.
Proof.
  destruct service as [a p s h c o u]. unfold view, embed. cbn.
  f_equal. apply (deref_seq [] h).
Qed.

Lemma embed_valid (service : ChatService.t) : valid (embed service).
Proof.
  unfold valid, embed. cbn. apply Forall_forall.
  intros ref Href. apply elem_of_seq in Href. lia.
Qed.

Lemma valid_lt_ne (this : t) (k : nat) :
  valid this -> length (objects this) <= k ->
  Forall (fun ref => ref <> k) (InFlight.history this).
Proof.
  unfold valid. intros Hvalid Hk. eapply Forall_impl; [exact Hvalid|].
  cbn. intros ref Href. lia.
Qed.

Lemma awaited_view message world this :
  awaited message world (view this) = awaited message world (signals this).
Proof. reflexivity. Qed.

(** The service while a call is in flight. *)
Lemma begin_view message world this :
  valid this ->
  view (snd (begin message world this)) = suspended message world (view this)
  /\ valid (snd (begin message world this)).
Proof.
  intros Hvalid. rewrite begin_run. cbn [snd]. split.
  - unfold view, suspended. cbn.
    f_equal. rewrite omap_app, deref_app by done. f_equal.
    csimpl. rewrite lookup_app_r, Nat.sub_diag by lia. csimpl.
    rewrite lookup_app_r by lia.
    by replace (S (length (objects this)) - length (objects this)) with 1 by lia.
  - unfold valid in *. cbn. rewrite length_app. cbn [length].
    apply Forall_app. split.
    + eapply Forall_impl; [exact Hvalid|]. cbn. lia.
    + repeat constructor; lia.
Qed.

(** A call that nothing interleaves with is [ChatService.sendMessage]. *)
Lemma call_view message world this :
  valid this ->
  fst (call message world this) = fst (sendMessage message world (view this))
  /\ view (snd (call message world this)) = snd (sendMessage message world (view this))
  /\ valid (snd (call message world this)).
Proof.
  intros Hvalid.
  destruct (begin_view message world this Hvalid) as [Hview Hvalid'].
  unfold call. rewrite bindN_run. rewrite begin_run in *. cbn [snd] in Hview, Hvalid'.
  pose proof (sendMessage_settles message world (view this)) as Hsend.
  rewrite awaited_view in Hsend.
  destruct (awaited message world (signals this)) as [response|e] eqn:Hawaited.
  - erewrite resume_fulfilled; [|reflexivity|].
    2:{ cbn [newAgentMessage objects]. rewrite lookup_app_r by lia.
        by replace (S (length (objects this)) - length (objects this)) with 1 by lia. }
    rewrite Hsend. cbn [fst snd]. split; [done|]. split.
    + unfold view, resumed. cbn.
      rewrite (removelast_app (InFlight.history this)) by done. cbn [removelast].
      rewrite <- (app_assoc (InFlight.history this)). cbn [app].
      f_equal; try done; try (by rewrite ?Nat.add_1_r); [].
      rewrite omap_app. f_equal.
      { rewrite deref_app.
        - rewrite deref_insert; [by rewrite deref_app|].
          apply valid_lt_ne; [done|]. lia.
        - rewrite length_insert, length_app. cbn [length].
          eapply Forall_impl; [exact Hvalid|]. cbn. lia. }
      csimpl.
      rewrite lookup_app_l by (rewrite length_insert, length_app; cbn; lia).
      rewrite list_lookup_insert_ne by lia.
      rewrite lookup_app_r, Nat.sub_diag by lia. csimpl.
      rewrite length_app. cbn [length].
      rewrite lookup_app_r by (rewrite length_insert, length_app; cbn; lia).
      rewrite length_insert, length_app. cbn [length].
      rewrite Nat.sub_diag. csimpl.
      unfold agentMessage_completed, complete_copy, contents_push, pushed_contents,
        agentMessage_of, agent_id. cbn.
      by rewrite ?Nat.add_1_r.
    + unfold valid in *. cbn.
      rewrite (removelast_app (InFlight.history this)) by done. cbn [removelast].
      rewrite !length_app, length_insert, length_app. cbn [length].
      apply Forall_app. split; [apply Forall_app; split|].
      * eapply Forall_impl; [exact Hvalid|]. cbn. lia.
      * repeat constructor; lia.
      * repeat constructor; lia.
  - rewrite (resume_rejected _ _ e) by done. rewrite Hsend. cbn [fst snd].
    by rewrite Hview.
Qed.

Lemma run_valid (calls : list Call) (this : t) :
  valid this ->
  valid (InFlight.run calls this)
  /\ view (InFlight.run calls this) = ChatService.run calls (view this).
Proof.
  revert this. induction calls as [|c calls IH]; intros this Hvalid; [done|].
  cbn [InFlight.run ChatService.run fold_left].
  destruct (call_view (message c) (world c) this Hvalid) as (_ & Hview & Hvalid').
  destruct (IH _ Hvalid') as [Hvalid'' Hrun].
  split; [done|]. unfold InFlight.run in Hrun. unfold InFlight.after at 2.
  rewrite Hrun. unfold ChatService.run, ChatService.after. by rewrite Hview.
Qed.

(** A resuming call leaves the history as long as it finds it, when it is
    not empty. *)
Lemma resume_history_length (suspended : Suspended) (this : t) :
  InFlight.history this <> [] ->
  length (InFlight.history (snd (resume suspended this)))
  = length (InFlight.history this).
Proof.
  intros Hnonempty.
  destruct (promise suspended) as [response|e] eqn:Hpromise.
  - destruct (objects this !! newAgentMessage suspended) as [agent|] eqn:Hagent.
    + rewrite (resume_fulfilled _ _ _ _ Hpromise Hagent). cbn [snd InFlight.history].
      rewrite length_app. cbn [length].
      destruct (InFlight.history this) as [|ref refs] using rev_ind; [done|].
      rewrite removelast_last, length_app. cbn [length]. lia.
    + unfold resume, surfaces_refresh, isA2aStreamOpen_set, contextId_set,
        processor_processMessages, agentContents.
      run_N. rewrite Hpromise.
      destruct (truthy_string (newContextId (result response)));
        run_N; rewrite map_M_content_of_run; run_N.
      all: unfold push; cbn [objects]; by rewrite Hagent.
  - by rewrite (resume_rejected _ _ e).
Qed.

(** One step of a schedule in which every call begun has its two
    messages in the history. *)
Lemma step_history_length (flight : Flight) (s : Step) :
  2 * length (calls flight) <= length (InFlight.history (InFlight.service flight)) ->
  2 * length (calls (step flight s))
  <= length (InFlight.history (InFlight.service (step flight s)))
  /\ length (InFlight.history (InFlight.service (step flight s)))
     = length (InFlight.history (InFlight.service flight))
       + (if begins s then 2 else 0).
Proof.
  intros Hinv. destruct s as [message world|k]; cbn [step begins].
  - rewrite begin_run. cbn [InFlight.service InFlight.history calls].
    rewrite !length_app. cbn [length]. lia.
  - destruct (calls flight !! k) as [[suspended|]|] eqn:Hk;
      [|split; [done|lia]..].
    cbn [InFlight.service calls]. rewrite length_insert.
    rewrite resume_history_length; [lia|].
    apply lookup_lt_Some in Hk.
    destruct (InFlight.history (InFlight.service flight)); [cbn in Hinv; lia|done].
Qed.

Lemma exec_history_length (steps : list Step) (flight : Flight) :
  2 * length (calls flight) <= length (InFlight.history (InFlight.service flight)) ->
  length (InFlight.history (InFlight.service (exec steps flight)))
  = length (InFlight.history (InFlight.service flight))
    + 2 * length (filter (fun s => begins s = true) steps).
Proof.
  revert flight. induction steps as [|s steps IH]; intros flight Hinv.
  - cbn. lia.
  - cbn [exec fold_left]. fold (exec steps (step flight s)).
    destruct (step_history_length flight s Hinv) as [Hinv' Hlength].
    rewrite (IH _ Hinv'), Hlength.
    destruct s as [message world|k]; cbn [begins].
    + rewrite filter_cons_True by done. cbn [length]. lia.
    + rewrite filter_cons_False by done. lia.
Qed.

(** [begin], [resume] and [view] on a store in the form of [above]. *)
Lemma embed_above (service : ChatService.t) : embed service = above service service [] [].
Proof. unfold embed, above. cbn. by rewrite !app_nil_r. Qed.

Lemma begin_above service sig later offsets message world :
  begin message world (above service sig later offsets) =
  (Fulfilled {| newAgentMessage := length (ChatService.history service) + S (length later);
                promise := awaited message world sig;
                answers := world |},
   above service
     (with_history (ChatService.history sig) (suspended message world sig))
     (later ++ [userMessage_of message world sig;
                agentMessage_of message world sig])
     (offsets ++ [length later; S (length later)])).
Proof.
  rewrite begin_run. unfold above. cbn [signals objects InFlight.history].
  rewrite length_app, <- !app_assoc, fmap_app. cbn [fmap list_fmap].
  by rewrite Nat.add_succ_r.
Qed.

Lemma resume_above service sig later offsets suspended response i agent :
  promise suspended = Fulfilled response ->
  newAgentMessage suspended = length (ChatService.history service) + i ->
  later !! i = Some agent ->
  offsets <> [] ->
  resume suspended (above service sig later offsets) =
  (Fulfilled tt,
   above service (resumed_signals response sig)
     (<[i := contents_push agent (pushed_contents response sig)]> later
      ++ [complete_copy (contents_push agent (pushed_contents response sig))
            (ChatService.later (answers suspended))])
     (removelast offsets ++ [length later])).
Proof.
  intros Hpromise Href Hagent Hoffsets.
  erewrite resume_fulfilled; [|exact Hpromise|].
  2:{ unfold above. cbn [objects]. rewrite Href.
      rewrite lookup_app_r by lia.
      replace (length (ChatService.history service) + i
               - length (ChatService.history service)) with i by lia.
      exact Hagent. }
  unfold above. cbn [signals objects InFlight.history]. f_equal. f_equal.
  - by rewrite Href, insert_app_r, <- app_assoc.
  - destruct offsets as [|offset offsets _] using rev_ind; [done|].
    rewrite fmap_app. cbn [fmap list_fmap].
    rewrite app_assoc, !removelast_last, length_app, fmap_app, <- app_assoc.
    done.
Qed.

Lemma view_above service sig later offsets :
  view (above service sig later offsets)
  = with_history
      (ChatService.history service ++ omap (fun i => later !! i) offsets)
      sig.
Proof.
  unfold view, above, with_history. cbn. f_equal.
  rewrite omap_app. f_equal.
  - rewrite deref_app by (apply Forall_forall; intros ? ?%elem_of_seq; lia).
    apply (deref_seq [] (ChatService.history service)).
  - induction offsets as [|offset offsets IH]; [done|].
    csimpl. rewrite IH.
    rewrite lookup_app_r by lia.
    by replace (length (ChatService.history service) + offset
                - length (ChatService.history service)) with offset by lia.
Qed.

Lemma pushed_contents_data response service :
  data <$> pushed_contents response service
  = filter (fun part => shown part = true) (agentResponseParts (result response)).
Proof.
  unfold pushed_contents. generalize (uuids service).
  induction (filter _ _) as [|part parts IH]; intros n; [done|].
  cbn [numbered]. by rewrite fmap_cons, IH.
Qed.

End InFlightRun.

Section InFlightFacts.
Import ChatService Run InFlight InFlightRun.

(** A call that nothing interleaves with, run on the store of objects,
    settles as [ChatService.sendMessage] does and leaves the same service;
    so do calls made one after the other. *)
Theorem call_alone_is_sendMessage :
  (forall service message world,
     fst (call message world (embed service)) = fst (sendMessage message world service)
     /\ view (snd (call message world (embed service)))
        = snd (sendMessage message world service))
  /\ (forall service calls,
        view (InFlight.run calls (embed service)) = ChatService.run calls service).
Proof.
  split.
  - intros service message world.
    destruct (call_view message world (embed service) (embed_valid service))
      as (Houtcome & Hview & _).
    by rewrite view_embed in Houtcome, Hview.
  - intros service calls.
    destruct (run_valid calls (embed service) (embed_valid service)) as [_ Hrun].
    by rewrite view_embed in Hrun.
Qed.

(** While a call is in flight the service shows the history with the two
    new messages, both [pending] and the agent's without contents, the
    stream-open flag set and the context id, the processor and the catalog
    list as they were at entry; the promise awaited is that of the request
    built at entry. *)
Theorem service_while_in_flight
    (service : ChatService.t) (message : Input) (world : Answers) :
  exists suspended,
    fst (begin message world (embed service)) = Fulfilled suspended
    /\ promise suspended = awaited message world service
    /\ let shown_service := view (snd (begin message world (embed service))) in
       ChatService.history shown_service
       = ChatService.history service
         ++ [userMessage_of message world service; agentMessage_of message world service]
       /\ status (userMessage_of message world service) = pending
       /\ status (agentMessage_of message world service) = pending
       /\ contents (agentMessage_of message world service) = []
       /\ isA2aStreamOpen shown_service = true
       /\ contextId shown_service = contextId service
       /\ processor shown_service = processor service
       /\ a2aService shown_service = a2aService service.
Proof.
  destruct (begin_view message world (embed service) (embed_valid service))
    as [Hview _].
  rewrite view_embed in Hview. cbv zeta. rewrite Hview.
  rewrite begin_run. eexists. split; [done|]. by repeat split.
Qed.

(** Under any schedule of begins and resumes, the history is as long as it
    was plus two for every call begun: a resuming call replaces the last
    element and never adds or removes one. *)
Theorem history_length_under_any_schedule (steps : list Step) (this : t) :
  length (InFlight.history (InFlight.service (exec steps (start this))))
  = length (InFlight.history this)
    + 2 * length (filter (fun s => begins s = true) steps).
Proof.
  apply (exec_history_length steps (start this)). cbn. lia.
Qed.

(** Two calls in flight together, the first resuming first, both
    fulfilled.  The first call pushes its contents onto its agent message
    but completes a copy that it puts in the place of the last element,
    which is the second call's agent message; the second call then
    replaces that copy by its own.  So the first call's agent message
    stays [pending] in the history, with the first call's contents, and
    only the second call's is [completed]. *)
Theorem overtaken_call_stays_pending
    (service : ChatService.t)
    (messageA messageB : Input) (worldA worldB : Answers)
    (responseA responseB : SendMessageSuccessResponse) :
  awaited messageA worldA service = Fulfilled responseA ->
  awaited messageB worldB service = Fulfilled responseB ->
  let final :=
    view (InFlight.service
            (exec [Begin messageA worldA; Begin messageB worldB; Resume 0; Resume 1]
                  (start (embed service)))) in
  exists agentA agentB,
    ChatService.history final
    = ChatService.history service
      ++ [userMessage_of messageA worldA service; agentA;
          userMessage_of messageB worldB (suspended messageA worldA service); agentB]
    /\ id agentA = agent_id messageA service
    /\ status agentA = pending
    /\ data <$> contents agentA
       = filter (fun part => shown part = true) (agentResponseParts (result responseA))
    /\ id agentB = agent_id messageB (suspended messageA worldA service)
    /\ status agentB = completed
    /\ data <$> contents agentB
       = filter (fun part => shown part = true) (agentResponseParts (result responseB))
    /\ isA2aStreamOpen final = false.
Proof.
  intros HA HB final. subst final.
  unfold exec, start. cbn [fold_left step InFlight.service calls].
  rewrite embed_above, begin_above. cbn [InFlight.service calls app length].
  rewrite begin_above. cbn [InFlight.service calls app length lookup list_lookup].
  cbn [insert list_insert lookup list_lookup InFlight.service snd].
  erewrite (resume_above _ _ _ _ _ responseA 1); [|exact HA|done|done|done].
  cbn [snd answers removelast app length insert list_insert].
  erewrite (resume_above _ _ _ _ _ responseB 3); [|exact HB|done|done|done].
  cbn [snd answers removelast app length insert list_insert].
  rewrite view_above. csimpl.
  do 2 eexists. split; [reflexivity|].
  do 2 (split; [reflexivity|]). split; [apply pushed_contents_data|].
  do 2 (split; [reflexivity|]). split; [apply pushed_contents_data|done].
Qed.

(** The same two calls, the second resuming first.  The second call
    completes its agent message; the first call then pushes its contents
    onto its own agent message, which stays [pending], and replaces the
    last element, the second call's completed message, by the completed
    copy of its own: the second call's reply is gone from the history and
    the first call's is there twice. *)
Theorem later_reply_is_overwritten
    (service : ChatService.t)
    (messageA messageB : Input) (worldA worldB : Answers)
    (responseA responseB : SendMessageSuccessResponse) :
  awaited messageA worldA service = Fulfilled responseA ->
  awaited messageB worldB service = Fulfilled responseB ->
  let final :=
    view (InFlight.service
            (exec [Begin messageA worldA; Begin messageB worldB; Resume 1; Resume 0]
                  (start (embed service)))) in
  exists agentA copyA,
    ChatService.history final
    = ChatService.history service
      ++ [userMessage_of messageA worldA service; agentA;
          userMessage_of messageB worldB (suspended messageA worldA service); copyA]
    /\ id agentA = agent_id messageA service
    /\ status agentA = pending
    /\ id copyA = agent_id messageA service
    /\ status copyA = completed
    /\ contents copyA = contents agentA
    /\ data <$> contents agentA
       = filter (fun part => shown part = true) (agentResponseParts (result responseA))
    /\ contextId final
       = if truthy_string (newContextId (result responseA))
         then default EmptyString (newContextId (result responseA))
         else if truthy_string (newContextId (result responseB))
              then default EmptyString (newContextId (result responseB))
              else contextId service.
Proof.
  intros HA HB final. subst final.
  unfold exec, start. cbn [fold_left step InFlight.service calls].
  rewrite embed_above, begin_above. cbn [InFlight.service calls app length].
  rewrite begin_above. cbn [InFlight.service calls app length lookup list_lookup].
  cbn [insert list_insert lookup list_lookup InFlight.service snd].
  erewrite (resume_above _ _ _ _ _ responseB 3); [|exact HB|done|done|done].
  cbn [snd answers removelast app length insert list_insert].
  erewrite (resume_above _ _ _ _ _ responseA 1); [|exact HA|done|done|done].
  cbn [snd answers removelast app length insert list_insert].
  rewrite view_above. csimpl.
  do 2 eexists. split; [reflexivity|].
  do 5 (split; [reflexivity|]). split; [apply pushed_contents_data|done].
Qed.

(** The stream-open flag does not tell whether a call is in flight: when
    the first of two overlapping calls resumes, the flag is cleared while
    the second is still waiting for its response. *)
Theorem stream_flag_is_cleared_while_in_flight
    (service : ChatService.t)
    (messageA messageB : Input) (worldA worldB : Answers)
    (responseA : SendMessageSuccessResponse) :
  awaited messageA worldA service = Fulfilled responseA ->
  let flight :=
    exec [Begin messageA worldA; Begin messageB worldB; Resume 0]
         (start (embed service)) in
  isA2aStreamOpen (view (InFlight.service flight)) = false
  /\ exists suspended,
       calls flight !! 1 = Some (Some suspended)
       /\ promise suspended = awaited messageB worldB service.
Proof.
  intros HA flight. subst flight.
  unfold exec, start. cbn [fold_left step InFlight.service calls].
  rewrite embed_above, begin_above. cbn [InFlight.service calls app length].
  rewrite begin_above. cbn [InFlight.service calls app length lookup list_lookup].
  erewrite (resume_above _ _ _ _ _ responseA 1); [|exact HA|done|done|done].
  cbn [snd InFlight.service calls insert list_insert lookup list_lookup].
  split; [by rewrite view_above|]. by eexists.
Qed.


Lemma overtaken_call_stays_pending_witness :
  exists agentA agentB,
    ChatService.history
      (view (InFlight.service
               (exec [Begin (InputString "hi") (Samples.answers Samples.hello_message);
                      Begin (InputString "more") (Samples.answers Samples.hello_again);
                      Resume 0; Resume 1]
                     (start (embed Samples.service)))))
    = ChatService.history Samples.service
      ++ [userMessage_of (InputString "hi") (Samples.answers Samples.hello_message)
            Samples.service;
          agentA;
          userMessage_of (InputString "more") (Samples.answers Samples.hello_again)
            (suspended (InputString "hi") (Samples.answers Samples.hello_message)
               Samples.service);
          agentB]
    /\ status agentA = pending
    /\ status agentB = completed.
Proof.
  destruct (overtaken_call_stays_pending Samples.service
              (InputString "hi") (InputString "more")
              (Samples.answers Samples.hello_message)
              (Samples.answers Samples.hello_again)
              _ _ eq_refl eq_refl)
    as (agentA & agentB & Hhistory & _ & HA & _ & _ & HB & _).
  exists agentA, agentB. exact (conj Hhistory (conj HA HB)).
Defined.

Lemma later_reply_is_overwritten_witness :
  exists agentA copyA,
    ChatService.history
      (view (InFlight.service
               (exec [Begin (InputString "hi") (Samples.answers Samples.hello_message);
                      Begin (InputString "more") (Samples.answers Samples.hello_again);
                      Resume 1; Resume 0]
                     (start (embed Samples.service)))))
    = ChatService.history Samples.service
      ++ [userMessage_of (InputString "hi") (Samples.answers Samples.hello_message)
            Samples.service;
          agentA;
          userMessage_of (InputString "more") (Samples.answers Samples.hello_again)
            (suspended (InputString "hi") (Samples.answers Samples.hello_message)
               Samples.service);
          copyA]
    /\ status agentA = pending
    /\ status copyA = completed
    /\ contents copyA = contents agentA.
Proof.
  destruct (later_reply_is_overwritten Samples.service
              (InputString "hi") (InputString "more")
              (Samples.answers Samples.hello_message)
              (Samples.answers Samples.hello_again)
              _ _ eq_refl eq_refl)
    as (agentA & copyA & Hhistory & _ & HA & _ & Hcopy & Hcontents & _).
  exists agentA, copyA. exact (conj Hhistory (conj HA (conj Hcopy Hcontents))).
Defined.

Lemma stream_flag_is_cleared_while_in_flight_witness :
  isA2aStreamOpen
    (view (InFlight.service
             (exec [Begin (InputString "hi") (Samples.answers Samples.hello_message);
                    Begin (InputString "more") (Samples.answers Samples.hello_again);
                    Resume 0]
                   (start (embed Samples.service)))))
  = false.
Proof.
  exact (proj1 (stream_flag_is_cleared_while_in_flight Samples.service
                  (InputString "hi") (InputString "more")
                  (Samples.answers Samples.hello_message)
                  (Samples.answers Samples.hello_again)
                  _ eq_refl)).
Defined.

(** The completed agent message is the agent message that was in the
    history while the call was in flight, with the same id, context id,
    role and creation time; what differs is the status, the contents and
    the time of the last update. *)
Theorem completion_keeps_identity
    (service : ChatService.t) (message : Input) (world : Answers)
    (response : SendMessageSuccessResponse) :
  awaited message world service = Fulfilled response ->
  exists agent completed_agent,
    last (ChatService.history (view (snd (begin message world (embed service)))))
    = Some agent
    /\ last (ChatService.history (snd (sendMessage message world service)))
       = Some completed_agent
    /\ id completed_agent = id agent
    /\ context_id completed_agent = context_id agent
    /\ role completed_agent = role agent
    /\ created completed_agent = created agent
    /\ status agent = pending
    /\ status completed_agent = completed
    /\ lastUpdated agent = now world
    /\ lastUpdated completed_agent = later world.
Proof.
  intros Hawaited.
  destruct (begin_view message world (embed service) (embed_valid service))
    as [Hview _].
  rewrite view_embed in Hview. rewrite Hview.
  rewrite (sendMessage_fulfilled _ _ _ _ Hawaited).
  exists (agentMessage_of message world service),
         (agentMessage_completed message world service response).
  cbn [snd suspended resumed ChatService.history].
  rewrite !(last_app_cons _ [_]), !last_cons. by repeat split.
Qed.

Lemma completion_keeps_identity_witness :
  exists agent completed_agent,
    last (ChatService.history
            (view (snd (begin (InputString "hi")
                          (Samples.answers Samples.hello_message)
                          (embed Samples.service)))))
    = Some agent
    /\ last (ChatService.history
               (snd (sendMessage (InputString "hi")
                       (Samples.answers Samples.hello_message) Samples.service)))
       = Some completed_agent
    /\ id completed_agent = id agent.
Proof.
  destruct (completion_keeps_identity Samples.service (InputString "hi")
              (Samples.answers Samples.hello_message) _ eq_refl)
    as (agent & completed_agent & H1 & H2 & H3 & _).
  exists agent, completed_agent. exact (conj H1 (conj H2 H3)).
Defined.

End InFlightFacts.
